(** * useAnimatedKeyboard: the keyboard state synchronizer

    A shallow embedding of [src/hooks/useAnimatedKeyboard.ts] and the
    properties its specification states about it.

    The hook owns two Reanimated shared values, [state] (a [KeyboardState])
    and [temporaryCachedState] (one pending keyboard event or null).  The
    worklet [handleKeyboardEvent] is the only writer of both; the keyboard
    listeners call it with arguments derived from the platform event, and a
    reaction on [state.value.target] calls it again with a cached event.

    Conventions of the embedding:
    - a JavaScript [number] the hook computes with (a height, a screen
      coordinate, an offset) is an integer of [Z]; the statements
      below follow the expressions of the code and cancel no addition;
    - TypeScript declarations are erased at run time, so the values the hook
      only tests or forwards ([target], [duration], [easing]) are run-time
      values [jsval], in which an absent field is [JUndefined];
    - a worklet is a state transformer over the pair of shared values, and
      [runOnUI(f)(args)] is the execution of [f args] on that pair: each
      worklet runs to completion on the UI runtime before the next starts. *)

From Stdlib Require Import ZArith Bool String List Lia.
Import ListNotations.

Local Open Scope string_scope.
Local Open Scope Z_scope.

(** ** Run-time values *)

Inductive jsval : Type :=
| JUndefined
| JNull
| JNum (n : Z)
| JStr (s : string).

(** [!!v]: undefined, null, 0 and the empty string are falsy. *)
Definition truthy (v : jsval) : bool :=
  match v with
  | JUndefined | JNull => false
  | JNum n => negb (n =? 0)
  | JStr s => negb (s =? "")%string
  end.

(** [a === b] *)
Definition strict_eq (a b : jsval) : bool :=
  match a, b with
  | JUndefined, JUndefined => true
  | JNull, JNull => true
  | JNum x, JNum y => x =? y
  | JStr s, JStr t => (s =? t)%string
  | _, _ => false
  end.

(** [v ?? d] *)
Definition nullish (v d : jsval) : jsval :=
  match v with
  | JUndefined | JNull => d
  | _ => v
  end.

(** ** Data model *)

(** Modelled from the spec: the enum [KEYBOARD_STATUS] of [../constants],
    which is not among the sources; the spec gives its three members. *)
Inductive KEYBOARD_STATUS : Type :=
| UNDETERMINED
| SHOWN
| HIDDEN.

Definition status_eqb (a b : KEYBOARD_STATUS) : bool :=
  match a, b with
  | UNDETERMINED, UNDETERMINED | SHOWN, SHOWN | HIDDEN, HIDDEN => true
  | _, _ => false
  end.

(** Modelled from the spec: the interface [KeyboardState] of [../types],
    with the six fields of the spec's data model; [target] is optional. *)
Module KeyboardState.
Record t : Type := make {
  status : KEYBOARD_STATUS;
  height : Z;
  heightWithinContainer : Z;
  easing : jsval;
  duration : jsval;
  target : jsval
}.
End KeyboardState.

(** [Omit<KeyboardState, 'heightWithinContainer' | 'target'>], the content of
    [temporaryCachedState]. *)
Module Pending.
Record t : Type := make {
  status : KEYBOARD_STATUS;
  height : Z;
  duration : jsval;
  easing : jsval
}.
End Pending.

(** The [endCoordinates] of React Native's [KeyboardEvent]. *)
Module ScreenRect.
Record t : Type := make {
  screenX : Z;
  screenY : Z;
  width : Z;
  height : Z
}.
End ScreenRect.

(** React Native's [KeyboardEvent], delivered by [Keyboard.addListener]; its
    type declares [duration] and [easing] present. *)
Module KeyboardEvent.
Record t : Type := make {
  endCoordinates : ScreenRect.t;
  duration : jsval;
  easing : jsval
}.
End KeyboardEvent.

(** The payload of react-native-keyboard-controller's [KeyboardEvents]
    (typed [any] in the hook, which reads [height] and [duration]). *)
Module ControllerEvent.
Record t : Type := make {
  height : Z;
  duration : jsval
}.
End ControllerEvent.

(** The two shared values of one hook instance. *)
Record World : Type := mkWorld {
  state : KeyboardState.t;
  temporaryCachedState : option Pending.t
}.

Definition INITIAL_STATE : KeyboardState.t :=
  {| KeyboardState.status := UNDETERMINED;
     KeyboardState.height := 0;
     KeyboardState.heightWithinContainer := 0;
     KeyboardState.easing := JStr "keyboard";
     KeyboardState.duration := JNum 500;
     KeyboardState.target := JUndefined |}.

(** [useSharedValue(INITIAL_STATE)] and [useSharedValue(null)]. *)
Definition initial : World :=
  {| state := INITIAL_STATE; temporaryCachedState := None |}.

(** ** Worklets as state transformers *)

Definition Worklet (A : Type) : Type := World -> A * World.

Definition ret {A : Type} (a : A) : Worklet A := fun w => (a, w).

Definition bind {A B : Type} (m : Worklet A) (k : A -> Worklet B) : Worklet B :=
  fun w => let (a, w') := m w in k a w'.

Declare Scope worklet_scope.
Delimit Scope worklet_scope with worklet.
Notation "x <- m ;; k" := (bind m (fun x => k))
  (at level 61, m at next level, right associativity) : worklet_scope.
Notation "m ;; k" := (bind m (fun _ => k))
  (at level 61, right associativity) : worklet_scope.
Local Open Scope worklet_scope.

(** [state.get()] *)
Definition state_get : Worklet KeyboardState.t := fun w => (state w, w).

(** [state.set(updater)] *)
Definition state_set (f : KeyboardState.t -> KeyboardState.t) : Worklet unit :=
  fun w => (tt, {| state := f (state w);
                   temporaryCachedState := temporaryCachedState w |}).

(** [temporaryCachedState.get()] *)
Definition temporaryCachedState_get : Worklet (option Pending.t) :=
  fun w => (temporaryCachedState w, w).

(** [temporaryCachedState.set(v)] *)
Definition temporaryCachedState_set (v : option Pending.t) : Worklet unit :=
  fun w => (tt, {| state := state w; temporaryCachedState := v |}).

(** The shared values after a worklet has run. *)
Definition exec {A : Type} (m : Worklet A) (w : World) : World := snd (m w).

(** ** The worklet [handleKeyboardEvent] *)

Definition handleKeyboardEvent
    (status : KEYBOARD_STATUS) (height : Z) (duration easing : jsval)
    (bottomOffset : option Z) : Worklet unit :=
  currentState <- state_get ;;
  if status_eqb status SHOWN
     && negb (truthy (KeyboardState.target currentState)) then
    (* the event fired before the TextInput's onFocus: cache it and wait
       for the target *)
    temporaryCachedState_set
      (Some {| Pending.status := status;
               Pending.height := height;
               Pending.duration := duration;
               Pending.easing := easing |})
  else
    (* clear temporary cached state *)
    temporaryCachedState_set None ;;
    (* if keyboard status is hidden, then we keep old height *)
    let adjustedHeight :=
      if status_eqb status SHOWN then height
      else KeyboardState.height currentState in
    (* [if (bottomOffset)]: an absent or zero offset is falsy *)
    let adjustedHeight :=
      match bottomOffset with
      | Some offset =>
          if offset =? 0 then adjustedHeight else adjustedHeight + offset
      | None => adjustedHeight
      end in
    state_set (fun state =>
      {| KeyboardState.status := status;
         KeyboardState.easing := easing;
         KeyboardState.duration := duration;
         KeyboardState.height := adjustedHeight;
         KeyboardState.target := KeyboardState.target state;
         KeyboardState.heightWithinContainer :=
           KeyboardState.heightWithinContainer state |}).

(** The object the second path of [handleKeyboardEvent] passes to
    [state.set], written with one addition: an absent or zero offset adds 0. *)
Definition committed
    (st : KEYBOARD_STATUS) (h : Z) (d e : jsval) (off : option Z)
    (s : KeyboardState.t) : KeyboardState.t :=
  {| KeyboardState.status := st;
     KeyboardState.height :=
       (if status_eqb st SHOWN then h else KeyboardState.height s)
       + match off with Some o => o | None => 0 end;
     KeyboardState.heightWithinContainer := KeyboardState.heightWithinContainer s;
     KeyboardState.easing := e;
     KeyboardState.duration := d;
     KeyboardState.target := KeyboardState.target s |}.

(** ** The keyboard listeners of [useEffect] *)

(** The listeners registered when react-native-keyboard-controller is in use
    ([useKeyboardControllerEvents && KeyboardControllerEvents]). *)
Module Controller.
Definition handleOnKeyboardShow (event : ControllerEvent.t) : Worklet unit :=
  handleKeyboardEvent
    SHOWN
    (ControllerEvent.height event)
    (nullish (ControllerEvent.duration event) (JNum 250))
    (JStr "keyboard")
    (Some 0).

Definition handleOnKeyboardHide (event : ControllerEvent.t) : Worklet unit :=
  handleKeyboardEvent
    HIDDEN
    (ControllerEvent.height event)
    (nullish (ControllerEvent.duration event) (JNum 250))
    (JStr "keyboard")
    None.
End Controller.

(** Fallback: the listeners on the standard [Keyboard] API.  [SCREEN_HEIGHT]
    is a constant of [../constants], taken as a parameter. *)
Module Fallback.
Definition handleOnKeyboardShow
    (SCREEN_HEIGHT : Z) (event : KeyboardEvent.t) : Worklet unit :=
  handleKeyboardEvent
    SHOWN
    (ScreenRect.height (KeyboardEvent.endCoordinates event))
    (KeyboardEvent.duration event)
    (KeyboardEvent.easing event)
    (Some (SCREEN_HEIGHT
           - ScreenRect.height (KeyboardEvent.endCoordinates event)
           - ScreenRect.screenY (KeyboardEvent.endCoordinates event))).

Definition handleOnKeyboardHide (event : KeyboardEvent.t) : Worklet unit :=
  handleKeyboardEvent
    HIDDEN
    (ScreenRect.height (KeyboardEvent.endCoordinates event))
    (KeyboardEvent.duration event)
    (KeyboardEvent.easing event)
    None.
End Fallback.

(** What the platform can emit: a show or a hide notification of either
    source, with its payload. *)
Inductive Notification : Type :=
| ControllerShow (event : ControllerEvent.t)
| ControllerHide (event : ControllerEvent.t)
| KeyboardShow (event : KeyboardEvent.t)
| KeyboardHide (event : KeyboardEvent.t).

Definition isShow (n : Notification) : bool :=
  match n with
  | ControllerShow _ | KeyboardShow _ => true
  | ControllerHide _ | KeyboardHide _ => false
  end.

Definition isHide (n : Notification) : bool := negb (isShow n).

(** The subscriptions of [useEffect]: one source is listened to, chosen by
    [useKeyboardControllerEvents]; a notification of the other source reaches
    no listener. *)
Definition listener
    (SCREEN_HEIGHT : Z) (useKeyboardControllerEvents : bool)
    (n : Notification) : Worklet unit :=
  if useKeyboardControllerEvents then
    match n with
    | ControllerShow event => Controller.handleOnKeyboardShow event
    | ControllerHide event => Controller.handleOnKeyboardHide event
    | _ => ret tt
    end
  else
    match n with
    | KeyboardShow event => Fallback.handleOnKeyboardShow SCREEN_HEIGHT event
    | KeyboardHide event => Fallback.handleOnKeyboardHide event
    | _ => ret tt
    end.

(** ** The reaction on [state.value.target] *)

(** [() => state.value.target] *)
Definition prepare : Worklet jsval :=
  current <- state_get ;; ret (KeyboardState.target current).

(** [(result, previous) => { ... }] *)
Definition react (result previous : jsval) : Worklet unit :=
  if negb (truthy result) || strict_eq result previous then ret tt
  else
    cachedState <- temporaryCachedState_get ;;
    match cachedState with
    | None => ret tt
    | Some cached =>
        handleKeyboardEvent
          (Pending.status cached)
          (Pending.height cached)
          (Pending.duration cached)
          (Pending.easing cached)
          None
    end.

(** [useAnimatedReaction(prepare, react)]: after a worklet that may write
    [state], [react] receives the value of [prepare] after it and the value
    before it. *)
Definition useAnimatedReaction (m : Worklet unit) : Worklet unit :=
  previous <- prepare ;;
  m ;;
  result <- prepare ;;
  react result previous.

(** A write to [state] by a collaborator of the hook (the hook returns the
    shared value), observed by the reaction. *)
Definition assign (next : KeyboardState.t -> KeyboardState.t) : Worklet unit :=
  useAnimatedReaction (state_set next).

Definition withTarget (t : jsval) (s : KeyboardState.t) : KeyboardState.t :=
  {| KeyboardState.status := KeyboardState.status s;
     KeyboardState.height := KeyboardState.height s;
     KeyboardState.heightWithinContainer := KeyboardState.heightWithinContainer s;
     KeyboardState.easing := KeyboardState.easing s;
     KeyboardState.duration := KeyboardState.duration s;
     KeyboardState.target := t |}.

(** The focused input's collaborator sets [state.value.target]. *)
Definition setTarget (t : jsval) : Worklet unit := assign (withTarget t).

(** A keyboard notification reaching the hook, observed by the reaction. *)
Definition deliver
    (SCREEN_HEIGHT : Z) (useKeyboardControllerEvents : bool)
    (n : Notification) : Worklet unit :=
  useAnimatedReaction (listener SCREEN_HEIGHT useKeyboardControllerEvents n).

(** ** Histories of one hook instance *)

Inductive Action : Type :=
| Notify (n : Notification)
| Assign (next : KeyboardState.t -> KeyboardState.t).

Definition step
    (SCREEN_HEIGHT : Z) (useKeyboardControllerEvents : bool)
    (a : Action) : Worklet unit :=
  match a with
  | Notify n => deliver SCREEN_HEIGHT useKeyboardControllerEvents n
  | Assign next => assign next
  end.

Fixpoint sequence (ms : list (Worklet unit)) : Worklet unit :=
  match ms with
  | [] => ret tt
  | m :: rest => m ;; sequence rest
  end.

(** A sequence of keyboard notifications, delivered in order. *)
Definition deliverAll
    (SCREEN_HEIGHT : Z) (useKeyboardControllerEvents : bool)
    (ns : list Notification) : Worklet unit :=
  sequence (map (deliver SCREEN_HEIGHT useKeyboardControllerEvents) ns).

(** The worlds a hook instance can be in: [initial], then any actions. *)
Definition history
    (SCREEN_HEIGHT : Z) (useKeyboardControllerEvents : bool)
    (actions : list Action) : World :=
  exec (sequence (map (step SCREEN_HEIGHT useKeyboardControllerEvents) actions))
       initial.

(** A cached event has status SHOWN and waits for a target that is unset. *)
Definition pendingWaits (w : World) : Prop :=
  forall cached,
    temporaryCachedState w = Some cached ->
    Pending.status cached = SHOWN
    /\ truthy (KeyboardState.target (state w)) = false.

(** Whether the source a notification comes from is the one listened to. *)
Definition listened
    (useKeyboardControllerEvents : bool) (n : Notification) : bool :=
  match n with
  | ControllerShow _ | ControllerHide _ => useKeyboardControllerEvents
  | KeyboardShow _ | KeyboardHide _ => negb useKeyboardControllerEvents
  end.

(** What happens to a mounted hook in normal use: the keyboard notifies, or
    the focused input changes. *)
Inductive Input : Type :=
| Keyboard (n : Notification)
| Focus (t : jsval).

Definition toAction (i : Input) : Action :=
  match i with
  | Keyboard n => Notify n
  | Focus t => Assign (withTarget t)
  end.

(** ** The platform and the choice of the event source *)

(** The values of [Platform.OS]. *)
Inductive OS : Type := ios | android | macos | windows | web.

Definition OS_eqb (a b : OS) : bool :=
  match a, b with
  | ios, ios | android, android | macos, macos
  | windows, windows | web, web => true
  | _, _ => false
  end.

(** [Platform.select({ ios, android, default })] *)
Definition Platform_select {A : Type} (os : OS) (ios_ android_ default_ : A) : A :=
  match os with
  | ios => ios_
  | android => android_
  | _ => default_
  end.

(** A call that returns or throws. *)
Inductive Required (A : Type) : Type :=
| Throws
| Returns (v : A).
Arguments Throws {A}.
Arguments Returns {A} v.

(** What [require('react-native-keyboard-controller')] may return, as far as
    the hook looks into it: [rnkc?.KeyboardEvents?.addListener]. *)
Module Rnkc.
Record events : Type := makeEvents {
  addListener : bool
}.
Record t : Type := make {
  KeyboardEvents : option events
}.
End Rnkc.

(** [let KeyboardControllerEvents = null; try { ... } catch {}] *)
Definition KeyboardControllerEvents
    (required : Required (option Rnkc.t)) : option Rnkc.events :=
  match required with
  | Throws => None
  | Returns rnkc =>
      match rnkc with
      | Some m =>
          match Rnkc.KeyboardEvents m with
          | Some events =>
              if Rnkc.addListener events then Some events else None
          | None => None
          end
      | None => None
      end
  end.

(** [Platform.OS === 'android' && !!KeyboardControllerEvents] *)
Definition useKeyboardControllerEvents
    (os : OS) (controllerEvents : option Rnkc.events) : bool :=
  OS_eqb os android
  && match controllerEvents with Some _ => true | None => false end.

Module EventMapper.
Record t : Type := make {
  KEYBOARD_SHOW : string;
  KEYBOARD_HIDE : string
}.
End EventMapper.

Definition KEYBOARD_EVENT_MAPPER
    (os : OS) (useKeyboardControllerEvents : bool) : EventMapper.t :=
  {| EventMapper.KEYBOARD_SHOW :=
       Platform_select os
         "keyboardWillShow"
         (if useKeyboardControllerEvents
          then "keyboardWillShow" else "keyboardDidShow")
         "";
     EventMapper.KEYBOARD_HIDE :=
       Platform_select os
         "keyboardWillHide"
         (if useKeyboardControllerEvents
          then "keyboardWillHide" else "keyboardDidHide")
         "" |}.

(** ** The subscriptions of [useEffect] *)

(** An event emitter of the platform, [addListener(name, cb)] returning a
    subscription with [remove()]: the listeners in the order they were added,
    each with the identity of its subscription. *)
Record Subscription (P : Type) : Type := mkSubscription {
  sub_id : nat;
  sub_name : string;
  sub_callback : P -> Worklet unit
}.
Arguments mkSubscription {P}.
Arguments sub_id {P}.
Arguments sub_name {P}.
Arguments sub_callback {P}.

Definition Emitter (P : Type) : Type := list (Subscription P).

Definition addListener {P : Type}
    (id : nat) (name : string) (cb : P -> Worklet unit)
    (emitter : Emitter P) : Emitter P :=
  (emitter ++ [mkSubscription id name cb])%list.

Definition remove {P : Type} (id : nat) (emitter : Emitter P) : Emitter P :=
  filter (fun s => negb (Nat.eqb (sub_id s) id)) emitter.

(** The emitter fires [name]: the callbacks added under that name run in
    order. *)
Definition emit {P : Type}
    (name : string) (payload : P) (emitter : Emitter P) : Worklet unit :=
  sequence
    (map (fun s => sub_callback s payload)
         (filter (fun s => (sub_name s =? name)%string) emitter)).

(** The two emitters the hook may subscribe to, and the next subscription
    identity. *)
Record Native : Type := mkNative {
  controllerEmitter : Emitter ControllerEvent.t;
  keyboardEmitter : Emitter KeyboardEvent.t;
  fresh : nat
}.

Definition ids_below {P : Type} (bound : nat) (emitter : Emitter P) : Prop :=
  Forall (fun s => (sub_id s < bound)%nat) emitter.

(** The effect of [useEffect]: the emitters after the two [addListener]
    calls, and the cleanup function the effect returns. *)
Definition useEffect
    (SCREEN_HEIGHT : Z) (os : OS) (controllerEvents : option Rnkc.events)
    (native : Native) : Native * (Native -> Native) :=
  let mapper :=
    KEYBOARD_EVENT_MAPPER os (useKeyboardControllerEvents os controllerEvents) in
  let showSubscription := fresh native in
  let hideSubscription := S (fresh native) in
  if useKeyboardControllerEvents os controllerEvents
     && match controllerEvents with Some _ => true | None => false end then
    ({| controllerEmitter :=
          addListener hideSubscription (EventMapper.KEYBOARD_HIDE mapper)
            Controller.handleOnKeyboardHide
            (addListener showSubscription (EventMapper.KEYBOARD_SHOW mapper)
               Controller.handleOnKeyboardShow (controllerEmitter native));
        keyboardEmitter := keyboardEmitter native;
        fresh := S (S (fresh native)) |},
     fun later =>
       {| controllerEmitter :=
            remove hideSubscription
              (remove showSubscription (controllerEmitter later));
          keyboardEmitter := keyboardEmitter later;
          fresh := fresh later |})
  else
    ({| controllerEmitter := controllerEmitter native;
        keyboardEmitter :=
          addListener hideSubscription (EventMapper.KEYBOARD_HIDE mapper)
            Fallback.handleOnKeyboardHide
            (addListener showSubscription (EventMapper.KEYBOARD_SHOW mapper)
               (Fallback.handleOnKeyboardShow SCREEN_HEIGHT)
               (keyboardEmitter native));
        fresh := S (S (fresh native)) |},
     fun later =>
       {| controllerEmitter := controllerEmitter later;
          keyboardEmitter :=
            remove hideSubscription
              (remove showSubscription (keyboardEmitter later));
          fresh := fresh later |}).

(** A notification as the platform raises it: the emitter of its source
    fires the event name the mapper gives to show or to hide. *)
Definition raise
    (mapper : EventMapper.t) (n : Notification) (native : Native) : Worklet unit :=
  match n with
  | ControllerShow event =>
      emit (EventMapper.KEYBOARD_SHOW mapper) event (controllerEmitter native)
  | ControllerHide event =>
      emit (EventMapper.KEYBOARD_HIDE mapper) event (controllerEmitter native)
  | KeyboardShow event =>
      emit (EventMapper.KEYBOARD_SHOW mapper) event (keyboardEmitter native)
  | KeyboardHide event =>
      emit (EventMapper.KEYBOARD_HIDE mapper) event (keyboardEmitter native)
  end.

Ltac worklet :=
  unfold exec, handleKeyboardEvent, bind, ret, state_get, state_set,
    temporaryCachedState_get, temporaryCachedState_set; simpl.

(** * Properties *)

(** ** Run-time values *)

Lemma strict_eq_refl (v : jsval) : strict_eq v v = true.
Proof.
  destruct v as [| |n|s]; simpl; trivial.
  - apply Z.eqb_refl.
  - apply String.eqb_refl.
Qed.

Lemma strict_eq_eq (a b : jsval) : strict_eq a b = true <-> a = b.
Proof.
  split.
  - destruct a as [| |x|s], b as [| |y|t]; simpl; intro E;
      try discriminate; trivial.
    + apply Z.eqb_eq in E. now subst.
    + apply String.eqb_eq in E. now subst.
  - intros ->. apply strict_eq_refl.
Qed.

Lemma status_eqb_eq (a b : KEYBOARD_STATUS) : status_eqb a b = true <-> a = b.
Proof. destruct a, b; simpl; split; intro E; trivial; discriminate. Qed.

Lemma status_eqb_neq (a b : KEYBOARD_STATUS) : status_eqb a b = false <-> a <> b.
Proof.
  destruct a, b; simpl; split; intro E; trivial; try discriminate;
    try (intro; discriminate); now elim E.
Qed.

(** ** Running worklets *)

Lemma exec_bind {A B : Type} (m : Worklet A) (k : A -> Worklet B) (w : World) :
  exec (bind m k) w = exec (k (fst (m w))) (snd (m w)).
Proof. unfold exec, bind. now destruct (m w). Qed.

Lemma exec_seq (m k : Worklet unit) (w : World) :
  exec (m ;; k) w = exec k (exec m w).
Proof. unfold exec, bind. now destruct (m w). Qed.

Lemma exec_sequence_app (ms ks : list (Worklet unit)) (w : World) :
  exec (sequence (ms ++ ks)) w = exec (sequence ks) (exec (sequence ms) w).
Proof.
  revert w. induction ms as [|m ms IH]; intro w; simpl.
  - reflexivity.
  - now rewrite !exec_seq, IH.
Qed.

(** ** The two paths of [handleKeyboardEvent] *)

Lemma handleKeyboardEvent_caches h d e off w :
  truthy (KeyboardState.target (state w)) = false ->
  exec (handleKeyboardEvent SHOWN h d e off) w =
  {| state := state w;
     temporaryCachedState :=
       Some {| Pending.status := SHOWN; Pending.height := h;
               Pending.duration := d; Pending.easing := e |} |}.
Proof. intro U. worklet. now rewrite U. Qed.

Lemma handleKeyboardEvent_commits st h d e off w :
  truthy (KeyboardState.target (state w)) = true \/ st <> SHOWN ->
  exec (handleKeyboardEvent st h d e off) w =
  {| state := committed st h d e off (state w); temporaryCachedState := None |}.
Proof.
  intro C. worklet.
  assert (G : status_eqb st SHOWN
              && negb (truthy (KeyboardState.target (state w))) = false).
  { destruct C as [T | N].
    - rewrite T. apply andb_false_r.
    - apply status_eqb_neq in N. now rewrite N. }
  rewrite G. simpl. unfold committed.
  destruct off as [o|].
  - destruct (Z.eqb_spec o 0) as [-> | _]; trivial. now rewrite Z.add_0_r.
  - now rewrite Z.add_0_r.
Qed.

Lemma handleKeyboardEvent_target st h d e off w :
  KeyboardState.target (state (exec (handleKeyboardEvent st h d e off) w))
  = KeyboardState.target (state w).
Proof.
  worklet.
  now destruct (status_eqb st SHOWN
                && negb (truthy (KeyboardState.target (state w)))).
Qed.

Lemma handleKeyboardEvent_heightWithinContainer st h d e off w :
  KeyboardState.heightWithinContainer
    (state (exec (handleKeyboardEvent st h d e off) w))
  = KeyboardState.heightWithinContainer (state w).
Proof.
  worklet.
  now destruct (status_eqb st SHOWN
                && negb (truthy (KeyboardState.target (state w)))).
Qed.

(** Whatever the world before it, [handleKeyboardEvent] leaves either an
    empty cache or its own arguments with status SHOWN, and then the target
    is unset. *)
Lemma handleKeyboardEvent_cache st h d e off w c :
  temporaryCachedState (exec (handleKeyboardEvent st h d e off) w) = Some c ->
  st = SHOWN
  /\ c = {| Pending.status := SHOWN; Pending.height := h;
            Pending.duration := d; Pending.easing := e |}
  /\ truthy (KeyboardState.target (state w)) = false.
Proof.
  worklet.
  destruct (status_eqb st SHOWN) eqn:S; simpl.
  - apply status_eqb_eq in S. subst st.
    destruct (truthy (KeyboardState.target (state w))); simpl; intro E.
    + discriminate.
    + injection E as <-. auto.
  - discriminate.
Qed.

(** ** The listeners *)

Lemma listener_target SH kc n w :
  KeyboardState.target (state (exec (listener SH kc n) w))
  = KeyboardState.target (state w).
Proof.
  destruct kc, n; simpl; trivial; apply handleKeyboardEvent_target.
Qed.

Lemma listener_heightWithinContainer SH kc n w :
  KeyboardState.heightWithinContainer (state (exec (listener SH kc n) w))
  = KeyboardState.heightWithinContainer (state w).
Proof.
  destruct kc, n; simpl; trivial;
    apply handleKeyboardEvent_heightWithinContainer.
Qed.

Lemma listener_hide_height SH kc n w :
  isHide n = true ->
  KeyboardState.height (state (exec (listener SH kc n) w))
  = KeyboardState.height (state w).
Proof.
  intro H. destruct kc, n; try discriminate H; simpl; trivial;
    unfold Controller.handleOnKeyboardHide, Fallback.handleOnKeyboardHide;
    (rewrite handleKeyboardEvent_commits by (right; discriminate));
    simpl; apply Z.add_0_r.
Qed.

(** ** The reaction *)

Lemma react_skips result previous w :
  truthy result = false \/ result = previous ->
  exec (react result previous) w = w.
Proof.
  intros [F | E]; unfold react.
  - now rewrite F.
  - subst. rewrite strict_eq_refl, orb_true_r. reflexivity.
Qed.

Lemma exec_useAnimatedReaction m w :
  exec (useAnimatedReaction m) w
  = exec (react (KeyboardState.target (state (exec m w)))
                (KeyboardState.target (state w)))
         (exec m w).
Proof.
  unfold useAnimatedReaction, prepare, exec, bind, state_get, ret. simpl.
  now destruct (m w).
Qed.

(** A worklet that leaves the target as it was wakes the reaction for
    nothing. *)
Lemma useAnimatedReaction_same_target m w :
  KeyboardState.target (state (exec m w)) = KeyboardState.target (state w) ->
  exec (useAnimatedReaction m) w = exec m w.
Proof.
  intro E. rewrite exec_useAnimatedReaction. apply react_skips. now right.
Qed.

Lemma deliver_listener SH kc n w :
  exec (deliver SH kc n) w = exec (listener SH kc n) w.
Proof. apply useAnimatedReaction_same_target, listener_target. Qed.

Lemma react_replays result previous w cached :
  truthy result = true ->
  result <> previous ->
  temporaryCachedState w = Some cached ->
  exec (react result previous) w
  = exec (handleKeyboardEvent (Pending.status cached) (Pending.height cached)
            (Pending.duration cached) (Pending.easing cached) None) w.
Proof.
  intros T N C. unfold react. rewrite T. simpl.
  destruct (strict_eq result previous) eqn:E.
  - apply strict_eq_eq in E. contradiction.
  - rewrite exec_bind. simpl. now rewrite C.
Qed.

Lemma react_empty_cache result previous w :
  temporaryCachedState w = None ->
  exec (react result previous) w = w.
Proof.
  intro C. unfold react.
  destruct (negb (truthy result) || strict_eq result previous); trivial.
  rewrite exec_bind. simpl. now rewrite C.
Qed.

(** ** Claims *)

(** C1. When [target] goes from unset to a set value while an event is
    pending, the reaction calls [handleKeyboardEvent] again with the cached
    status, height, duration and easing and no bottomOffset, which commits
    them and empties the cache.  (Unset and set are the code's own test,
    [!target]; the spec's example, pending {SHOWN, 280, 250, 'keyboard'} and
    target "A", is [C1_pending_280_target_A] below.) *)
Theorem C1_target_set_replays_pending (w : World) (cached : Pending.t) (t : jsval) :
  truthy (KeyboardState.target (state w)) = false ->
  truthy t = true ->
  temporaryCachedState w = Some cached ->
  exec (setTarget t) w
  = exec (handleKeyboardEvent (Pending.status cached) (Pending.height cached)
            (Pending.duration cached) (Pending.easing cached) None)
         (exec (state_set (withTarget t)) w)
  /\ temporaryCachedState (exec (setTarget t) w) = None
  /\ state (exec (setTarget t) w)
     = {| KeyboardState.status := Pending.status cached;
          KeyboardState.height :=
            if status_eqb (Pending.status cached) SHOWN
            then Pending.height cached
            else KeyboardState.height (state w);
          KeyboardState.heightWithinContainer :=
            KeyboardState.heightWithinContainer (state w);
          KeyboardState.easing := Pending.easing cached;
          KeyboardState.duration := Pending.duration cached;
          KeyboardState.target := t |}.
Proof.
  intros U T C.
  assert (R : exec (setTarget t) w
              = exec (handleKeyboardEvent (Pending.status cached)
                        (Pending.height cached) (Pending.duration cached)
                        (Pending.easing cached) None)
                     (exec (state_set (withTarget t)) w)).
  { unfold setTarget, assign. rewrite exec_useAnimatedReaction.
    apply react_replays; simpl; trivial.
    intro E. rewrite <- E, T in U. discriminate. }
  rewrite R. split; [reflexivity|].
  rewrite handleKeyboardEvent_commits by (left; exact T).
  simpl. split; [reflexivity|].
  unfold committed. simpl. now rewrite Z.add_0_r.
Qed.

(** The spec's example of C1: the pending event {SHOWN, 280, 250, 'keyboard'}
    and the target set to "A" give the state {SHOWN, 280, 250, 'keyboard',
    target "A"}. *)
Lemma C1_pending_280_target_A :
  truthy (KeyboardState.target
            (state (mkWorld INITIAL_STATE
                      (Some (Pending.make SHOWN 280 (JNum 250) (JStr "keyboard"))))))
  = false
  /\ truthy (JStr "A") = true
  /\ temporaryCachedState
       (exec (setTarget (JStr "A"))
          (mkWorld INITIAL_STATE
             (Some (Pending.make SHOWN 280 (JNum 250) (JStr "keyboard")))))
     = None
  /\ state
       (exec (setTarget (JStr "A"))
          (mkWorld INITIAL_STATE
             (Some (Pending.make SHOWN 280 (JNum 250) (JStr "keyboard")))))
     = {| KeyboardState.status := SHOWN;
          KeyboardState.height := 280;
          KeyboardState.heightWithinContainer := 0;
          KeyboardState.easing := JStr "keyboard";
          KeyboardState.duration := JNum 250;
          KeyboardState.target := JStr "A" |}.
Proof.
  split; [reflexivity|]. split; [reflexivity|].
  destruct (C1_target_set_replays_pending
              (mkWorld INITIAL_STATE
                 (Some (Pending.make SHOWN 280 (JNum 250) (JStr "keyboard"))))
              (Pending.make SHOWN 280 (JNum 250) (JStr "keyboard"))
              (JStr "A") eq_refl eq_refl eq_refl) as [_ [E S]].
  split; [exact E | exact S].
Defined.

(** C2. A call of [handleKeyboardEvent] with status SHOWN while [target] is
    unset leaves [state] as it was, every field included, and stores the
    event's status, height, duration and easing, without the bottomOffset,
    as the pending event. *)
Theorem C2_show_without_target_is_cached
    (h : Z) (d e : jsval) (off : option Z) (w : World) :
  truthy (KeyboardState.target (state w)) = false ->
  state (exec (handleKeyboardEvent SHOWN h d e off) w) = state w
  /\ temporaryCachedState (exec (handleKeyboardEvent SHOWN h d e off) w)
     = Some {| Pending.status := SHOWN; Pending.height := h;
               Pending.duration := d; Pending.easing := e |}.
Proof.
  intro U. rewrite handleKeyboardEvent_caches by exact U. now split.
Qed.

Lemma C2_show_at_initial_state :
  truthy (KeyboardState.target (state initial)) = false
  /\ state (exec (handleKeyboardEvent SHOWN 280 (JNum 250) (JStr "keyboard")
                    (Some 48)) initial) = INITIAL_STATE
  /\ temporaryCachedState
       (exec (handleKeyboardEvent SHOWN 280 (JNum 250) (JStr "keyboard")
                (Some 48)) initial)
     = Some {| Pending.status := SHOWN; Pending.height := 280;
               Pending.duration := JNum 250;
               Pending.easing := JStr "keyboard" |}.
Proof.
  split; [reflexivity|].
  exact (C2_show_without_target_is_cached 280 (JNum 250) (JStr "keyboard")
           (Some 48) initial eq_refl).
Defined.

(** C4. No operation of the hook writes [target] or [heightWithinContainer]:
    [handleKeyboardEvent], for all arguments and on both of its paths, every
    listener and the reaction leave the two fields with the values they had. *)
Theorem C4_target_and_heightWithinContainer_kept :
  (forall st h d e off w,
      KeyboardState.target (state (exec (handleKeyboardEvent st h d e off) w))
      = KeyboardState.target (state w)
      /\ KeyboardState.heightWithinContainer
           (state (exec (handleKeyboardEvent st h d e off) w))
         = KeyboardState.heightWithinContainer (state w))
  /\ (forall SCREEN_HEIGHT useKeyboardControllerEvents n w,
      KeyboardState.target
        (state (exec (deliver SCREEN_HEIGHT useKeyboardControllerEvents n) w))
      = KeyboardState.target (state w)
      /\ KeyboardState.heightWithinContainer
           (state (exec (deliver SCREEN_HEIGHT useKeyboardControllerEvents n) w))
         = KeyboardState.heightWithinContainer (state w))
  /\ (forall result previous w,
      KeyboardState.target (state (exec (react result previous) w))
      = KeyboardState.target (state w)
      /\ KeyboardState.heightWithinContainer
           (state (exec (react result previous) w))
         = KeyboardState.heightWithinContainer (state w)).
Proof.
  split; [|split].
  - intros. split.
    + apply handleKeyboardEvent_target.
    + apply handleKeyboardEvent_heightWithinContainer.
  - intros. rewrite deliver_listener. split.
    + apply listener_target.
    + apply listener_heightWithinContainer.
  - intros result previous w. unfold react.
    destruct (negb (truthy result) || strict_eq result previous); [now split|].
    rewrite exec_bind. simpl.
    destruct (temporaryCachedState w) as [cached|]; [|now split].
    split.
    + apply handleKeyboardEvent_target.
    + apply handleKeyboardEvent_heightWithinContainer.
Qed.

(** C6. Setting [target] to its current value replays nothing: when the
    reaction sees a result equal to the previous one, or an unset result, it
    applies no pending event, and [state] and the cache are as before. *)
Theorem C6_same_target_no_replay (result previous : jsval) (w : World) :
  truthy result = false \/ result = previous ->
  exec (react result previous) w = w
  /\ exec (setTarget (KeyboardState.target (state w))) w = w.
Proof.
  intro H. split.
  - now apply react_skips.
  - unfold setTarget, assign. rewrite useAnimatedReaction_same_target.
    + destruct w as [[st h hc e d t] c]. reflexivity.
    + reflexivity.
Qed.

Lemma C6_target_A_set_again :
  (truthy (JStr "A") = false \/ JStr "A" = JStr "A")
  /\ exec (react (JStr "A") (JStr "A"))
          (mkWorld (withTarget (JStr "A") INITIAL_STATE)
             (Some (Pending.make SHOWN 280 (JNum 250) (JStr "keyboard"))))
     = mkWorld (withTarget (JStr "A") INITIAL_STATE)
         (Some (Pending.make SHOWN 280 (JNum 250) (JStr "keyboard")))
  /\ exec (setTarget (JStr "A"))
          (mkWorld (withTarget (JStr "A") INITIAL_STATE)
             (Some (Pending.make SHOWN 280 (JNum 250) (JStr "keyboard"))))
     = mkWorld (withTarget (JStr "A") INITIAL_STATE)
         (Some (Pending.make SHOWN 280 (JNum 250) (JStr "keyboard"))).
Proof.
  split; [right; reflexivity|].
  exact (C6_same_target_no_replay (JStr "A") (JStr "A")
           (mkWorld (withTarget (JStr "A") INITIAL_STATE)
              (Some (Pending.make SHOWN 280 (JNum 250) (JStr "keyboard"))))
           (or_intror eq_refl)).
Defined.

(** ** Sequences of notifications *)

Lemma deliverAll_app SH kc ns ms w :
  exec (deliverAll SH kc (ns ++ ms)) w
  = exec (deliverAll SH kc ms) (exec (deliverAll SH kc ns) w).
Proof. unfold deliverAll. now rewrite map_app, exec_sequence_app. Qed.

Lemma deliverAll_cons SH kc n ns w :
  exec (deliverAll SH kc (n :: ns)) w
  = exec (deliverAll SH kc ns) (exec (listener SH kc n) w).
Proof.
  unfold deliverAll. simpl. now rewrite exec_seq, deliver_listener.
Qed.

Lemma deliverAll_target SH kc ns :
  forall w,
    KeyboardState.target (state (exec (deliverAll SH kc ns) w))
    = KeyboardState.target (state w).
Proof.
  induction ns as [|n ns IH]; intro w.
  - reflexivity.
  - now rewrite deliverAll_cons, IH, listener_target.
Qed.

Lemma deliverAll_hides_height SH kc hides :
  Forall (fun n => isHide n = true) hides ->
  forall w,
    KeyboardState.height (state (exec (deliverAll SH kc hides) w))
    = KeyboardState.height (state w).
Proof.
  induction 1 as [|n hides Hn _ IH]; intro w.
  - reflexivity.
  - now rewrite deliverAll_cons, IH, listener_hide_height.
Qed.

Lemma controller_show_height ev w :
  truthy (KeyboardState.target (state w)) = true ->
  KeyboardState.height (state (exec (Controller.handleOnKeyboardShow ev) w))
  = ControllerEvent.height ev.
Proof.
  intro T. unfold Controller.handleOnKeyboardShow.
  rewrite handleKeyboardEvent_commits by (now left).
  simpl. apply Z.add_0_r.
Qed.

Lemma fallback_show_height SH ev w :
  truthy (KeyboardState.target (state w)) = true ->
  KeyboardState.height (state (exec (Fallback.handleOnKeyboardShow SH ev) w))
  = ScreenRect.height (KeyboardEvent.endCoordinates ev)
    + (SH - ScreenRect.height (KeyboardEvent.endCoordinates ev)
          - ScreenRect.screenY (KeyboardEvent.endCoordinates ev)).
Proof.
  intro T. unfold Fallback.handleOnKeyboardShow.
  now rewrite handleKeyboardEvent_commits by (now left).
Qed.

(** C3.  For every call of [handleKeyboardEvent] that commits (target set,
    or status not SHOWN): with status SHOWN the committed height is the
    event's height, plus the bottomOffset when one is given; with status
    HIDDEN it is the previous height of [state].  The calls with status
    HIDDEN are those of the hook: the two hide listeners and the replay of
    the reaction, each with four arguments, so without bottomOffset.
    Consequently, for every sequence of show and hide notifications with the
    target already set, the height after the hide notifications that follow
    a show notification is the height that show notification resulted in,
    which is the height it committed when its source is the one listened
    to. *)
Theorem C3_committed_height :
  (forall h d e off w,
      truthy (KeyboardState.target (state w)) = true ->
      KeyboardState.height (state (exec (handleKeyboardEvent SHOWN h d e off) w))
      = h + match off with Some o => o | None => 0 end)
  /\ (forall h d e w,
      KeyboardState.height (state (exec (handleKeyboardEvent HIDDEN h d e None) w))
      = KeyboardState.height (state w))
  /\ (forall event w,
      KeyboardState.height (state (exec (Controller.handleOnKeyboardHide event) w))
      = KeyboardState.height (state w))
  /\ (forall event w,
      KeyboardState.height (state (exec (Fallback.handleOnKeyboardHide event) w))
      = KeyboardState.height (state w))
  /\ (forall result previous cached w,
      temporaryCachedState w = Some cached ->
      (Pending.status cached = HIDDEN ->
       KeyboardState.height (state (exec (react result previous) w))
       = KeyboardState.height (state w))
      /\ (Pending.status cached = SHOWN ->
          truthy (KeyboardState.target (state w)) = true ->
          truthy result = true ->
          result <> previous ->
          KeyboardState.height (state (exec (react result previous) w))
          = Pending.height cached))
  /\ (forall SCREEN_HEIGHT useKeyboardControllerEvents n w,
      isHide n = true ->
      KeyboardState.height
        (state (exec (deliver SCREEN_HEIGHT useKeyboardControllerEvents n) w))
      = KeyboardState.height (state w))
  /\ (forall SCREEN_HEIGHT useKeyboardControllerEvents pre s hides w,
      truthy (KeyboardState.target (state w)) = true ->
      isShow s = true ->
      Forall (fun n => isHide n = true) hides ->
      KeyboardState.height
        (state (exec (deliverAll SCREEN_HEIGHT useKeyboardControllerEvents
                        (pre ++ s :: hides)) w))
      = KeyboardState.height
          (state (exec (deliverAll SCREEN_HEIGHT useKeyboardControllerEvents
                          (pre ++ [s])) w))
      /\ match s with
         | ControllerShow event =>
             useKeyboardControllerEvents = true ->
             KeyboardState.height
               (state (exec (deliverAll SCREEN_HEIGHT
                               useKeyboardControllerEvents
                               (pre ++ s :: hides)) w))
             = ControllerEvent.height event
         | KeyboardShow event =>
             useKeyboardControllerEvents = false ->
             KeyboardState.height
               (state (exec (deliverAll SCREEN_HEIGHT
                               useKeyboardControllerEvents
                               (pre ++ s :: hides)) w))
             = ScreenRect.height (KeyboardEvent.endCoordinates event)
               + (SCREEN_HEIGHT
                  - ScreenRect.height (KeyboardEvent.endCoordinates event)
                  - ScreenRect.screenY (KeyboardEvent.endCoordinates event))
         | _ => True
         end).
Proof.
  assert (Hidden : forall h d e w,
             KeyboardState.height
               (state (exec (handleKeyboardEvent HIDDEN h d e None) w))
             = KeyboardState.height (state w)).
  { intros h d e w.
    rewrite handleKeyboardEvent_commits by (right; discriminate).
    simpl. apply Z.add_0_r. }
  split; [|split; [|split; [|split; [|split; [|split]]]]].
  - intros h d e off w T.
    now rewrite handleKeyboardEvent_commits by (now left).
  - exact Hidden.
  - intros ev w. apply Hidden.
  - intros ev w. apply Hidden.
  - intros result previous cached w C. split.
    + intro S. unfold react.
      destruct (negb (truthy result) || strict_eq result previous);
        [reflexivity|].
      rewrite exec_bind. simpl. rewrite C, S. apply Hidden.
    + intros S T R N.
      rewrite (react_replays result previous w cached R N C).
      rewrite handleKeyboardEvent_commits by (now left).
      simpl. rewrite S. simpl. apply Z.add_0_r.
  - intros SH kc n w H. rewrite deliver_listener.
    now apply listener_hide_height.
  - intros SH kc pre s hides w T S H.
    assert (E : forall k,
               exec (deliverAll SH kc (pre ++ s :: k)) w
               = exec (deliverAll SH kc k)
                   (exec (listener SH kc s) (exec (deliverAll SH kc pre) w))).
    { intro k. now rewrite deliverAll_app, deliverAll_cons. }
    assert (T' : truthy (KeyboardState.target
                           (state (exec (deliverAll SH kc pre) w))) = true).
    { now rewrite deliverAll_target. }
    rewrite !E. rewrite deliverAll_hides_height by exact H.
    split; [reflexivity|].
    destruct s as [ev|ev|ev|ev]; try exact I; intros ->; simpl.
    + now apply controller_show_height.
    + now apply fallback_show_height.
Qed.

Lemma C3_show_300_then_hide :
  truthy (KeyboardState.target
            (state (mkWorld (withTarget (JNum 7) INITIAL_STATE) None))) = true
  /\ KeyboardState.height
       (state (exec (handleKeyboardEvent SHOWN 300 (JNum 250) (JStr "keyboard")
                       (Some 48))
                    (mkWorld (withTarget (JNum 7) INITIAL_STATE) None)))
     = 348
  /\ temporaryCachedState
       (mkWorld (KeyboardState.make SHOWN 300 0 (JStr "keyboard") (JNum 250)
                   (JNum 7))
                (Some (Pending.make HIDDEN 0 (JNum 250) (JStr "keyboard"))))
     = Some (Pending.make HIDDEN 0 (JNum 250) (JStr "keyboard"))
  /\ Pending.status (Pending.make HIDDEN 0 (JNum 250) (JStr "keyboard")) = HIDDEN
  /\ KeyboardState.height
       (state (exec (react (JNum 7) JUndefined)
                    (mkWorld (KeyboardState.make SHOWN 300 0 (JStr "keyboard")
                                (JNum 250) (JNum 7))
                             (Some (Pending.make HIDDEN 0 (JNum 250)
                                      (JStr "keyboard"))))))
     = 300
  /\ isHide (KeyboardHide (KeyboardEvent.make (ScreenRect.make 0 800 400 0)
                             (JNum 250) (JStr "keyboard"))) = true
  /\ KeyboardState.height
       (state (exec (deliver 800 false
                       (KeyboardHide
                          (KeyboardEvent.make (ScreenRect.make 0 800 400 0)
                             (JNum 250) (JStr "keyboard"))))
                    (mkWorld (KeyboardState.make SHOWN 300 0 (JStr "keyboard")
                                (JNum 250) (JNum 7))
                             None)))
     = 300
  /\ isShow (ControllerShow (ControllerEvent.make 300 (JNum 250))) = true
  /\ Forall (fun n => isHide n = true)
       [ControllerHide (ControllerEvent.make 0 (JNum 250))]
  /\ KeyboardState.height
       (state (exec (deliverAll 800 true
                       [ControllerShow (ControllerEvent.make 300 (JNum 250));
                        ControllerHide (ControllerEvent.make 0 (JNum 250))])
                    (mkWorld (withTarget (JNum 7) INITIAL_STATE) None)))
     = 300.
Proof.
  destruct C3_committed_height as [Shown [_ [_ [_ [Replay [Hide Seq]]]]]].
  split; [reflexivity|].
  split.
  { exact (Shown 300 (JNum 250) (JStr "keyboard") (Some 48)
             (mkWorld (withTarget (JNum 7) INITIAL_STATE) None) eq_refl). }
  split; [reflexivity|]. split; [reflexivity|].
  split.
  { exact (proj1 (Replay (JNum 7) JUndefined
                    (Pending.make HIDDEN 0 (JNum 250) (JStr "keyboard"))
                    (mkWorld (KeyboardState.make SHOWN 300 0 (JStr "keyboard")
                                (JNum 250) (JNum 7))
                       (Some (Pending.make HIDDEN 0 (JNum 250)
                                (JStr "keyboard"))))
                    eq_refl)
                 eq_refl). }
  split; [reflexivity|].
  split.
  { exact (Hide 800 false
             (KeyboardHide (KeyboardEvent.make (ScreenRect.make 0 800 400 0)
                              (JNum 250) (JStr "keyboard")))
             (mkWorld (KeyboardState.make SHOWN 300 0 (JStr "keyboard")
                         (JNum 250) (JNum 7)) None)
             eq_refl). }
  split; [reflexivity|].
  assert (H : Forall (fun n => isHide n = true)
                [ControllerHide (ControllerEvent.make 0 (JNum 250))]).
  { repeat constructor. }
  split; [exact H|].
  exact (proj2 (Seq 800 true []
                  (ControllerShow (ControllerEvent.make 300 (JNum 250)))
                  [ControllerHide (ControllerEvent.make 0 (JNum 250))]
                  (mkWorld (withTarget (JNum 7) INITIAL_STATE) None)
                  eq_refl eq_refl H)
               eq_refl).
Defined.

(** ** The arguments the listeners pass *)

(** An offset of 0 is falsy: the call behaves as the call without offset. *)
Lemma handleKeyboardEvent_offset_0 st h d e w :
  exec (handleKeyboardEvent st h d e (Some 0)) w
  = exec (handleKeyboardEvent st h d e None) w.
Proof.
  worklet.
  now destruct (status_eqb st SHOWN
                && negb (truthy (KeyboardState.target (state w)))).
Qed.

(** C5. The bottomOffset enters the committed height only through a show
    notification of the primary source, the standard Keyboard API: its
    listener commits the reported height plus
    [SCREEN_HEIGHT - height - screenY].  The show listener of the alternative
    source, react-native-keyboard-controller, passes the offset 0, which
    behaves as no offset at all, and commits exactly the reported height; the
    hide listeners of both sources pass no offset and commit the previous
    height. *)
Theorem C5_bottomOffset_only_on_primary_show :
  (forall SCREEN_HEIGHT event w,
      truthy (KeyboardState.target (state w)) = true ->
      KeyboardState.height
        (state (exec (Fallback.handleOnKeyboardShow SCREEN_HEIGHT event) w))
      = ScreenRect.height (KeyboardEvent.endCoordinates event)
        + (SCREEN_HEIGHT
           - ScreenRect.height (KeyboardEvent.endCoordinates event)
           - ScreenRect.screenY (KeyboardEvent.endCoordinates event)))
  /\ (forall event w,
      exec (Controller.handleOnKeyboardShow event) w
      = exec (handleKeyboardEvent SHOWN (ControllerEvent.height event)
                (nullish (ControllerEvent.duration event) (JNum 250))
                (JStr "keyboard") None) w)
  /\ (forall event w,
      truthy (KeyboardState.target (state w)) = true ->
      KeyboardState.height (state (exec (Controller.handleOnKeyboardShow event) w))
      = ControllerEvent.height event)
  /\ (forall event w,
      KeyboardState.height (state (exec (Controller.handleOnKeyboardHide event) w))
      = KeyboardState.height (state w))
  /\ (forall event w,
      KeyboardState.height (state (exec (Fallback.handleOnKeyboardHide event) w))
      = KeyboardState.height (state w)).
Proof.
  split; [|split; [|split; [|split]]].
  - intros SH ev w T. now apply fallback_show_height.
  - intros ev w. apply handleKeyboardEvent_offset_0.
  - intros ev w T. now apply controller_show_height.
  - intros ev w.
    apply (listener_hide_height 0 true (ControllerHide ev) w eq_refl).
  - intros ev w.
    apply (listener_hide_height 0 false (KeyboardHide ev) w eq_refl).
Qed.

Lemma C5_offset_48_on_primary_show :
  truthy (KeyboardState.target
            (state (mkWorld (withTarget (JNum 7) INITIAL_STATE) None))) = true
  /\ KeyboardState.height
       (state (exec (Fallback.handleOnKeyboardShow 800
                       (KeyboardEvent.make (ScreenRect.make 0 452 400 300)
                          (JNum 250) (JStr "keyboard")))
                    (mkWorld (withTarget (JNum 7) INITIAL_STATE) None)))
     = 348
  /\ KeyboardState.height
       (state (exec (Controller.handleOnKeyboardShow
                       (ControllerEvent.make 300 (JNum 250)))
                    (mkWorld (withTarget (JNum 7) INITIAL_STATE) None)))
     = 300.
Proof.
  destruct C5_bottomOffset_only_on_primary_show as [P [_ [A _]]].
  split; [reflexivity|]. split.
  - exact (P 800 (KeyboardEvent.make (ScreenRect.make 0 452 400 300)
                    (JNum 250) (JStr "keyboard"))
             (mkWorld (withTarget (JNum 7) INITIAL_STATE) None) eq_refl).
  - exact (A (ControllerEvent.make 300 (JNum 250))
             (mkWorld (withTarget (JNum 7) INITIAL_STATE) None) eq_refl).
Defined.

(** C8. The show listener of the primary source computes the bottomOffset
    [SCREEN_HEIGHT - height - screenY] from the event's end coordinates and
    commits the reported height plus that offset.  With screen height 800 and
    end coordinates {height: 300, screenY: 500} the offset is 0 and the
    committed height is 300 ([C8_screen_800_keyboard_300]). *)
Theorem C8_primary_show_bottomOffset
    (SCREEN_HEIGHT : Z) (event : KeyboardEvent.t) (w : World) :
  truthy (KeyboardState.target (state w)) = true ->
  state (exec (Fallback.handleOnKeyboardShow SCREEN_HEIGHT event) w)
  = {| KeyboardState.status := SHOWN;
       KeyboardState.height :=
         ScreenRect.height (KeyboardEvent.endCoordinates event)
         + (SCREEN_HEIGHT
            - ScreenRect.height (KeyboardEvent.endCoordinates event)
            - ScreenRect.screenY (KeyboardEvent.endCoordinates event));
       KeyboardState.heightWithinContainer :=
         KeyboardState.heightWithinContainer (state w);
       KeyboardState.easing := KeyboardEvent.easing event;
       KeyboardState.duration := KeyboardEvent.duration event;
       KeyboardState.target := KeyboardState.target (state w) |}.
Proof.
  intro T. unfold Fallback.handleOnKeyboardShow.
  now rewrite handleKeyboardEvent_commits by (now left).
Qed.

Lemma C8_screen_800_keyboard_300 :
  truthy (KeyboardState.target
            (state (mkWorld (withTarget (JStr "A") INITIAL_STATE) None))) = true
  /\ 800 - 300 - 500 = 0
  /\ state (exec (Fallback.handleOnKeyboardShow 800
                    (KeyboardEvent.make (ScreenRect.make 0 500 400 300)
                       (JNum 250) (JStr "keyboard")))
                 (mkWorld (withTarget (JStr "A") INITIAL_STATE) None))
     = {| KeyboardState.status := SHOWN;
          KeyboardState.height := 300;
          KeyboardState.heightWithinContainer := 0;
          KeyboardState.easing := JStr "keyboard";
          KeyboardState.duration := JNum 250;
          KeyboardState.target := JStr "A" |}.
Proof.
  split; [reflexivity|]. split; [reflexivity|].
  exact (C8_primary_show_bottomOffset 800
           (KeyboardEvent.make (ScreenRect.make 0 500 400 300)
              (JNum 250) (JStr "keyboard"))
           (mkWorld (withTarget (JStr "A") INITIAL_STATE) None) eq_refl).
Defined.

(** C7, as stated, fails: the listeners of the standard Keyboard API supply
    no default.  A hide event whose [duration] and [easing] are absent
    commits them absent, not 250 and not a default token. *)
Lemma C7_primary_hide_without_duration :
  KeyboardEvent.duration
    (KeyboardEvent.make (ScreenRect.make 0 800 400 0) JUndefined JUndefined)
  = JUndefined
  /\ KeyboardState.duration
       (state (exec (Fallback.handleOnKeyboardHide
                       (KeyboardEvent.make (ScreenRect.make 0 800 400 0)
                          JUndefined JUndefined))
                    initial))
     <> JNum 250
  /\ KeyboardState.easing
       (state (exec (Fallback.handleOnKeyboardHide
                       (KeyboardEvent.make (ScreenRect.make 0 800 400 0)
                          JUndefined JUndefined))
                    initial))
     = JUndefined.
Proof. vm_compute. repeat split; discriminate. Qed.

(** C7, amended.  The default duration of 250 ms and the default easing token
    belong to the listeners of react-native-keyboard-controller: a show or
    hide event of that source is committed with duration
    [event.duration ?? 250], so 250 when the field is absent, and with the
    easing token 'keyboard'.  The listeners of the standard Keyboard API
    commit the event's own [duration] and [easing], whose type declares them
    present.  (A show event is committed when the target is set; every
    listener is a total update of the shared values, with no error result.) *)
Theorem C7_defaults_of_the_listeners :
  (forall event w,
      (truthy (KeyboardState.target (state w)) = true ->
       KeyboardState.duration
         (state (exec (Controller.handleOnKeyboardShow event) w))
       = nullish (ControllerEvent.duration event) (JNum 250)
       /\ KeyboardState.easing
            (state (exec (Controller.handleOnKeyboardShow event) w))
          = JStr "keyboard")
      /\ KeyboardState.duration
           (state (exec (Controller.handleOnKeyboardHide event) w))
         = nullish (ControllerEvent.duration event) (JNum 250)
      /\ KeyboardState.easing
           (state (exec (Controller.handleOnKeyboardHide event) w))
         = JStr "keyboard")
  /\ (forall event,
      ControllerEvent.duration event = JUndefined
      \/ ControllerEvent.duration event = JNull ->
      nullish (ControllerEvent.duration event) (JNum 250) = JNum 250)
  /\ (forall SCREEN_HEIGHT event w,
      (truthy (KeyboardState.target (state w)) = true ->
       KeyboardState.duration
         (state (exec (Fallback.handleOnKeyboardShow SCREEN_HEIGHT event) w))
       = KeyboardEvent.duration event
       /\ KeyboardState.easing
            (state (exec (Fallback.handleOnKeyboardShow SCREEN_HEIGHT event) w))
          = KeyboardEvent.easing event)
      /\ KeyboardState.duration
           (state (exec (Fallback.handleOnKeyboardHide event) w))
         = KeyboardEvent.duration event
      /\ KeyboardState.easing
           (state (exec (Fallback.handleOnKeyboardHide event) w))
         = KeyboardEvent.easing event).
Proof.
  split; [|split].
  - intros ev w. split; [|split].
    + intro T. unfold Controller.handleOnKeyboardShow.
      rewrite handleKeyboardEvent_commits by (now left). now split.
    + unfold Controller.handleOnKeyboardHide.
      now rewrite handleKeyboardEvent_commits by (right; discriminate).
    + unfold Controller.handleOnKeyboardHide.
      now rewrite handleKeyboardEvent_commits by (right; discriminate).
  - intros ev [E | E]; now rewrite E.
  - intros SH ev w. split; [|split].
    + intro T. unfold Fallback.handleOnKeyboardShow.
      rewrite handleKeyboardEvent_commits by (now left). now split.
    + unfold Fallback.handleOnKeyboardHide.
      now rewrite handleKeyboardEvent_commits by (right; discriminate).
    + unfold Fallback.handleOnKeyboardHide.
      now rewrite handleKeyboardEvent_commits by (right; discriminate).
Qed.

Lemma C7_controller_show_without_duration :
  truthy (KeyboardState.target
            (state (mkWorld (withTarget (JNum 7) INITIAL_STATE) None))) = true
  /\ (ControllerEvent.duration (ControllerEvent.make 300 JUndefined) = JUndefined
      \/ ControllerEvent.duration (ControllerEvent.make 300 JUndefined) = JNull)
  /\ KeyboardState.duration
       (state (exec (Controller.handleOnKeyboardShow
                       (ControllerEvent.make 300 JUndefined))
                    (mkWorld (withTarget (JNum 7) INITIAL_STATE) None)))
     = JNum 250
  /\ KeyboardState.easing
       (state (exec (Controller.handleOnKeyboardShow
                       (ControllerEvent.make 300 JUndefined))
                    (mkWorld (withTarget (JNum 7) INITIAL_STATE) None)))
     = JStr "keyboard"
  /\ KeyboardState.duration
       (state (exec (Fallback.handleOnKeyboardShow 800
                       (KeyboardEvent.make (ScreenRect.make 0 500 400 300)
                          (JNum 0) (JStr "keyboard")))
                    (mkWorld (withTarget (JNum 7) INITIAL_STATE) None)))
     = JNum 0.
Proof.
  destruct C7_defaults_of_the_listeners as [C [D F]].
  split; [reflexivity|]. split; [left; reflexivity|].
  destruct (proj1 (C (ControllerEvent.make 300 JUndefined)
                     (mkWorld (withTarget (JNum 7) INITIAL_STATE) None))
                  eq_refl) as [Du Ea].
  split.
  { rewrite Du.
    exact (D (ControllerEvent.make 300 JUndefined) (or_introl eq_refl)). }
  split; [exact Ea|].
  exact (proj1 (proj1 (F 800
                         (KeyboardEvent.make (ScreenRect.make 0 500 400 300)
                            (JNum 0) (JStr "keyboard"))
                         (mkWorld (withTarget (JNum 7) INITIAL_STATE) None))
                      eq_refl)).
Defined.

(** C9, as stated, fails: the initial duration is not the default duration of
    250 ms that the listeners supply. *)
Lemma C9_initial_duration_is_not_250 :
  KeyboardState.duration (state initial) <> JNum 250.
Proof. vm_compute. discriminate. Qed.

(** C9, amended.  The state created with the hook is the fixed value
    [INITIAL_STATE]: status UNDETERMINED, height 0, heightWithinContainer 0,
    easing 'keyboard' (the token the keyboard-controller listeners also
    supply), duration 500 and no target; the cache starts empty, and this is
    the world of the empty history. *)
Theorem C9_initial_state (SCREEN_HEIGHT : Z) (useKeyboardControllerEvents : bool) :
  history SCREEN_HEIGHT useKeyboardControllerEvents [] = initial
  /\ temporaryCachedState initial = None
  /\ KeyboardState.status (state initial) = UNDETERMINED
  /\ KeyboardState.height (state initial) = 0
  /\ KeyboardState.heightWithinContainer (state initial) = 0
  /\ KeyboardState.easing (state initial) = JStr "keyboard"
  /\ KeyboardState.duration (state initial) = JNum 500
  /\ KeyboardState.target (state initial) = JUndefined.
Proof. repeat split. Qed.

(** ** The invariant of the cache *)

Lemma initial_pendingWaits : pendingWaits initial.
Proof. intros cached E. discriminate E. Qed.

Lemma handleKeyboardEvent_pendingWaits st h d e off w :
  pendingWaits (exec (handleKeyboardEvent st h d e off) w).
Proof.
  intros cached E.
  rewrite handleKeyboardEvent_target.
  apply handleKeyboardEvent_cache in E as [_ [-> U]]. now split.
Qed.

Lemma listener_pendingWaits SH kc n w :
  pendingWaits w -> pendingWaits (exec (listener SH kc n) w).
Proof.
  intro I. destruct kc, n; simpl; trivial;
    apply handleKeyboardEvent_pendingWaits.
Qed.

Lemma assign_pendingWaits next w :
  pendingWaits w -> pendingWaits (exec (assign next) w).
Proof.
  intro I. unfold assign. rewrite exec_useAnimatedReaction.
  set (w' := exec (state_set next) w).
  assert (C : temporaryCachedState w' = temporaryCachedState w) by reflexivity.
  set (result := KeyboardState.target (state w')).
  set (previous := KeyboardState.target (state w)).
  destruct (truthy result) eqn:T.
  - destruct (temporaryCachedState w') as [cached|] eqn:P.
    + (* a pending event means the previous target was unset *)
      destruct (I cached (eq_sym C)) as [_ U].
      rewrite (react_replays result previous w' cached T) by
        (trivial; intro E; unfold previous in E; rewrite <- E in U;
         fold result in U; rewrite T in U; discriminate).
      apply handleKeyboardEvent_pendingWaits.
    + rewrite react_empty_cache by exact P.
      intros cached E. rewrite P in E. discriminate.
  - rewrite react_skips by (now left).
    intros cached E. rewrite C in E. destruct (I cached E) as [S _].
    split; [exact S | exact T].
Qed.

Lemma step_pendingWaits SH kc a w :
  pendingWaits w -> pendingWaits (exec (step SH kc a) w).
Proof.
  intro I. destruct a as [n | next]; simpl.
  - rewrite deliver_listener. now apply listener_pendingWaits.
  - now apply assign_pendingWaits.
Qed.

Lemma steps_pendingWaits SH kc actions :
  forall w,
    pendingWaits w ->
    pendingWaits (exec (sequence (map (step SH kc) actions)) w).
Proof.
  induction actions as [|a actions IH]; intros w I; simpl.
  - exact I.
  - rewrite exec_seq. apply IH. now apply step_pendingWaits.
Qed.

(** C10. Every value ever stored in the cache has status SHOWN: this holds
    for each store of [handleKeyboardEvent], whatever the world before it,
    and so for the cache of every world a hook instance reaches from its
    initial one; a hide listener leaves the cache empty.  A second call with
    status SHOWN while the target is still unset overwrites the one slot with
    the newer event's fields, and [state] is still untouched. *)
Theorem C10_cache_holds_shown_events :
  (forall st h d e off w cached,
      temporaryCachedState (exec (handleKeyboardEvent st h d e off) w)
      = Some cached ->
      st = SHOWN /\ Pending.status cached = SHOWN)
  /\ (forall SCREEN_HEIGHT useKeyboardControllerEvents actions cached,
      temporaryCachedState
        (history SCREEN_HEIGHT useKeyboardControllerEvents actions)
      = Some cached ->
      Pending.status cached = SHOWN)
  /\ (forall event w,
      temporaryCachedState (exec (Controller.handleOnKeyboardHide event) w)
      = None)
  /\ (forall event w,
      temporaryCachedState (exec (Fallback.handleOnKeyboardHide event) w)
      = None)
  /\ (forall h1 d1 e1 off1 h2 d2 e2 off2 w,
      truthy (KeyboardState.target (state w)) = false ->
      exec (handleKeyboardEvent SHOWN h2 d2 e2 off2)
           (exec (handleKeyboardEvent SHOWN h1 d1 e1 off1) w)
      = {| state := state w;
           temporaryCachedState :=
             Some {| Pending.status := SHOWN; Pending.height := h2;
                     Pending.duration := d2; Pending.easing := e2 |} |}).
Proof.
  split; [|split; [|split; [|split]]].
  - intros st h d e off w cached E.
    apply handleKeyboardEvent_cache in E as [S [-> _]]. now split.
  - intros SH kc actions cached E.
    exact (proj1 (steps_pendingWaits SH kc actions initial
                    initial_pendingWaits cached E)).
  - intros ev w. unfold Controller.handleOnKeyboardHide.
    now rewrite handleKeyboardEvent_commits by (right; discriminate).
  - intros ev w. unfold Fallback.handleOnKeyboardHide.
    now rewrite handleKeyboardEvent_commits by (right; discriminate).
  - intros h1 d1 e1 off1 h2 d2 e2 off2 w U.
    rewrite (handleKeyboardEvent_caches h1) by exact U.
    now rewrite handleKeyboardEvent_caches by exact U.
Qed.

Lemma C10_two_shows_before_focus :
  temporaryCachedState
    (history 800 true
       [Notify (ControllerShow (ControllerEvent.make 300 JUndefined));
        Notify (ControllerShow (ControllerEvent.make 320 (JNum 100)))])
  = Some (Pending.make SHOWN 320 (JNum 100) (JStr "keyboard"))
  /\ Pending.status (Pending.make SHOWN 320 (JNum 100) (JStr "keyboard")) = SHOWN
  /\ truthy (KeyboardState.target (state initial)) = false
  /\ exec (handleKeyboardEvent SHOWN 320 (JNum 100) (JStr "keyboard") (Some 0))
          (exec (handleKeyboardEvent SHOWN 300 (JNum 250) (JStr "keyboard")
                   (Some 0)) initial)
     = mkWorld INITIAL_STATE
         (Some (Pending.make SHOWN 320 (JNum 100) (JStr "keyboard"))).
Proof.
  destruct C10_cache_holds_shown_events as [_ [H [_ [_ O]]]].
  split; [reflexivity|].
  split.
  { exact (H 800 true
             [Notify (ControllerShow (ControllerEvent.make 300 JUndefined));
              Notify (ControllerShow (ControllerEvent.make 320 (JNum 100)))]
             (Pending.make SHOWN 320 (JNum 100) (JStr "keyboard")) eq_refl). }
  split; [reflexivity|].
  exact (O 300 (JNum 250) (JStr "keyboard") (Some 0)
           320 (JNum 100) (JStr "keyboard") (Some 0) initial eq_refl).
Defined.

(** ** Two histories *)

(** A show notification before the focus, then the focus: the cached event is
    replayed with the default duration and easing of its listener. *)
Example show_then_focus :
  history 800 true
    [Notify (ControllerShow (ControllerEvent.make 280 JUndefined));
     Assign (withTarget (JStr "A"))]
  = mkWorld (KeyboardState.make SHOWN 280 0 (JStr "keyboard") (JNum 250)
               (JStr "A"))
            None.
Proof. reflexivity. Qed.

(** The cache holds no bottomOffset: a show notification of the standard
    Keyboard API that waited for its target is committed with the reported
    height alone, where the same notification after the focus adds the
    offset 800 - 300 - 452 = 48. *)
Example replay_has_no_bottomOffset :
  KeyboardState.height
    (state (history 800 false
              [Notify (KeyboardShow
                         (KeyboardEvent.make (ScreenRect.make 0 452 400 300)
                            (JNum 250) (JStr "keyboard")));
               Assign (withTarget (JStr "A"))]))
  = 300
  /\ KeyboardState.height
       (state (history 800 false
                 [Assign (withTarget (JStr "A"));
                  Notify (KeyboardShow
                            (KeyboardEvent.make (ScreenRect.make 0 452 400 300)
                               (JNum 250) (JStr "keyboard")))]))
     = 348.
Proof. split; reflexivity. Qed.

(** * Further properties of the hook *)

(** ** What a call of [handleKeyboardEvent] depends on *)

Lemma status_eqb_refl (st : KEYBOARD_STATUS) : status_eqb st st = true.
Proof. now destruct st. Qed.

(** A committing SHOWN call reads only [target] and [heightWithinContainer]
    of the world it runs in. *)
Lemma handleKeyboardEvent_shown_frame h d e off w1 w2 :
  truthy (KeyboardState.target (state w1)) = true ->
  KeyboardState.target (state w1) = KeyboardState.target (state w2) ->
  KeyboardState.heightWithinContainer (state w1)
  = KeyboardState.heightWithinContainer (state w2) ->
  exec (handleKeyboardEvent SHOWN h d e off) w1
  = exec (handleKeyboardEvent SHOWN h d e off) w2.
Proof.
  intros T Et Eh.
  rewrite (handleKeyboardEvent_commits SHOWN h d e off w1) by (now left).
  rewrite (handleKeyboardEvent_commits SHOWN h d e off w2)
    by (left; now rewrite <- Et).
  unfold committed. simpl. now rewrite Et, Eh.
Qed.

(** A HIDDEN call reads only [height], [target] and
    [heightWithinContainer]. *)
Lemma handleKeyboardEvent_hidden_frame h d e off w1 w2 :
  KeyboardState.height (state w1) = KeyboardState.height (state w2) ->
  KeyboardState.target (state w1) = KeyboardState.target (state w2) ->
  KeyboardState.heightWithinContainer (state w1)
  = KeyboardState.heightWithinContainer (state w2) ->
  exec (handleKeyboardEvent HIDDEN h d e off) w1
  = exec (handleKeyboardEvent HIDDEN h d e off) w2.
Proof.
  intros Ek Et Eh.
  rewrite !handleKeyboardEvent_commits by (right; discriminate).
  unfold committed. simpl. now rewrite Ek, Et, Eh.
Qed.

Lemma handleKeyboardEvent_shown_twice h d e off w :
  exec (handleKeyboardEvent SHOWN h d e off)
       (exec (handleKeyboardEvent SHOWN h d e off) w)
  = exec (handleKeyboardEvent SHOWN h d e off) w.
Proof.
  destruct (truthy (KeyboardState.target (state w))) eqn:T.
  - apply handleKeyboardEvent_shown_frame.
    + now rewrite handleKeyboardEvent_target.
    + apply handleKeyboardEvent_target.
    + apply handleKeyboardEvent_heightWithinContainer.
  - rewrite (handleKeyboardEvent_caches h d e off w) by exact T.
    now rewrite handleKeyboardEvent_caches by exact T.
Qed.

Lemma handleKeyboardEvent_hidden_twice h d e w :
  exec (handleKeyboardEvent HIDDEN h d e None)
       (exec (handleKeyboardEvent HIDDEN h d e None) w)
  = exec (handleKeyboardEvent HIDDEN h d e None) w.
Proof.
  apply handleKeyboardEvent_hidden_frame.
  - rewrite handleKeyboardEvent_commits by (right; discriminate).
    simpl. apply Z.add_0_r.
  - apply handleKeyboardEvent_target.
  - apply handleKeyboardEvent_heightWithinContainer.
Qed.

Lemma listener_not_listened SH kc n w :
  listened kc n = false -> exec (listener SH kc n) w = w.
Proof. destruct kc, n; simpl; intro L; trivial; discriminate. Qed.

(** While the target is unset no notification changes the height. *)
Lemma listener_height_without_target SH kc n w :
  truthy (KeyboardState.target (state w)) = false ->
  KeyboardState.height (state (exec (listener SH kc n) w))
  = KeyboardState.height (state w).
Proof.
  intro U. destruct (isShow n) eqn:S.
  - destruct kc, n; try discriminate S; simpl; trivial;
      unfold Controller.handleOnKeyboardShow, Fallback.handleOnKeyboardShow;
      now rewrite handleKeyboardEvent_caches by exact U.
  - apply listener_hide_height. unfold isHide. now rewrite S.
Qed.

(** ** The reaction after a change of target *)

Lemma react_target result previous w :
  KeyboardState.target (state (exec (react result previous) w))
  = KeyboardState.target (state w).
Proof.
  unfold react.
  destruct (negb (truthy result) || strict_eq result previous); trivial.
  rewrite exec_bind. simpl.
  destruct (temporaryCachedState w); trivial.
  apply handleKeyboardEvent_target.
Qed.

Lemma react_heightWithinContainer result previous w :
  KeyboardState.heightWithinContainer (state (exec (react result previous) w))
  = KeyboardState.heightWithinContainer (state w).
Proof.
  unfold react.
  destruct (negb (truthy result) || strict_eq result previous); trivial.
  rewrite exec_bind. simpl.
  destruct (temporaryCachedState w); trivial.
  apply handleKeyboardEvent_heightWithinContainer.
Qed.

Lemma setTarget_target t w :
  KeyboardState.target (state (exec (setTarget t) w)) = t.
Proof.
  unfold setTarget, assign. rewrite exec_useAnimatedReaction.
  now rewrite react_target.
Qed.

Lemma setTarget_heightWithinContainer t w :
  KeyboardState.heightWithinContainer (state (exec (setTarget t) w))
  = KeyboardState.heightWithinContainer (state w).
Proof.
  unfold setTarget, assign. rewrite exec_useAnimatedReaction.
  now rewrite react_heightWithinContainer.
Qed.

Lemma setTarget_replays w cached t :
  truthy (KeyboardState.target (state w)) = false ->
  truthy t = true ->
  temporaryCachedState w = Some cached ->
  exec (setTarget t) w
  = {| state := committed (Pending.status cached) (Pending.height cached)
                  (Pending.duration cached) (Pending.easing cached) None
                  (withTarget t (state w));
       temporaryCachedState := None |}.
Proof.
  intros U T C. unfold setTarget, assign. rewrite exec_useAnimatedReaction.
  rewrite (react_replays _ _ _ cached); simpl; trivial.
  - now rewrite handleKeyboardEvent_commits by (left; exact T).
  - intro E. rewrite <- E, T in U. discriminate.
Qed.

Lemma setTarget_empty_cache w t :
  temporaryCachedState w = None ->
  exec (setTarget t) w
  = {| state := withTarget t (state w); temporaryCachedState := None |}.
Proof.
  intro C. unfold setTarget, assign. rewrite exec_useAnimatedReaction.
  rewrite react_empty_cache by exact C.
  unfold exec, state_set. simpl. now rewrite C.
Qed.

Lemma setTarget_clears_cache w t :
  pendingWaits w ->
  truthy t = true ->
  temporaryCachedState (exec (setTarget t) w) = None.
Proof.
  intros I T. destruct (temporaryCachedState w) as [cached|] eqn:C.
  - destruct (I cached C) as [_ U].
    now rewrite (setTarget_replays w cached t U T C).
  - now rewrite setTarget_empty_cache by exact C.
Qed.

(** ** The cache *)

(** X1. In every world a hook instance reaches, an event is pending only while
    the target is unset: whatever notifications and writes to [state]
    occurred, a cached event never coexists with a set target. *)
Theorem pending_only_without_target
    (SCREEN_HEIGHT : Z) (useKC : bool) (actions : list Action)
    (cached : Pending.t) :
  temporaryCachedState (history SCREEN_HEIGHT useKC actions) = Some cached ->
  truthy (KeyboardState.target (state (history SCREEN_HEIGHT useKC actions)))
  = false.
Proof.
  intro E.
  exact (proj2 (steps_pendingWaits SCREEN_HEIGHT useKC actions initial
                  initial_pendingWaits cached E)).
Qed.

Lemma pending_only_without_target_after_show :
  temporaryCachedState
    (history 800 false
       [Assign (withTarget (JNum 7)); Assign (withTarget JUndefined);
        Notify (KeyboardShow
                  (KeyboardEvent.make (ScreenRect.make 0 500 400 300)
                     (JNum 250) (JStr "keyboard")))])
  = Some (Pending.make SHOWN 300 (JNum 250) (JStr "keyboard"))
  /\ truthy
       (KeyboardState.target
          (state
             (history 800 false
                [Assign (withTarget (JNum 7)); Assign (withTarget JUndefined);
                 Notify (KeyboardShow
                           (KeyboardEvent.make (ScreenRect.make 0 500 400 300)
                              (JNum 250) (JStr "keyboard")))])))
     = false.
Proof.
  split; [reflexivity|].
  exact (pending_only_without_target 800 false
           [Assign (withTarget (JNum 7)); Assign (withTarget JUndefined);
            Notify (KeyboardShow
                      (KeyboardEvent.make (ScreenRect.make 0 500 400 300)
                         (JNum 250) (JStr "keyboard")))]
           (Pending.make SHOWN 300 (JNum 250) (JStr "keyboard")) eq_refl).
Defined.

(** X2. A call of [handleKeyboardEvent] either caches or commits, never both:
    the cache is non-empty after the call exactly when the status was SHOWN
    and the target unset, and then [state] is as before; in every other case
    the cache is empty, whatever it held. *)
Theorem handleKeyboardEvent_caches_or_commits
    (st : KEYBOARD_STATUS) (h : Z) (d e : jsval) (off : option Z) (w : World) :
  (temporaryCachedState (exec (handleKeyboardEvent st h d e off) w) <> None
   <-> st = SHOWN /\ truthy (KeyboardState.target (state w)) = false)
  /\ (temporaryCachedState (exec (handleKeyboardEvent st h d e off) w) <> None
      -> state (exec (handleKeyboardEvent st h d e off) w) = state w)
  /\ (state (exec (handleKeyboardEvent st h d e off) w) <> state w
      -> temporaryCachedState (exec (handleKeyboardEvent st h d e off) w)
         = None).
Proof.
  assert (K : temporaryCachedState (exec (handleKeyboardEvent st h d e off) w)
              <> None
              -> st = SHOWN /\ truthy (KeyboardState.target (state w)) = false).
  { intro N.
    destruct (temporaryCachedState (exec (handleKeyboardEvent st h d e off) w))
      as [c|] eqn:E; [|now elim N].
    apply handleKeyboardEvent_cache in E as [S [_ U]]. now split. }
  split; [split|split].
  - exact K.
  - intros [-> U]. now rewrite handleKeyboardEvent_caches by exact U.
  - intro N. destruct (K N) as [-> U].
    now rewrite handleKeyboardEvent_caches by exact U.
  - intro N.
    destruct (temporaryCachedState (exec (handleKeyboardEvent st h d e off) w))
      as [c|] eqn:E; trivial.
    apply handleKeyboardEvent_cache in E as [-> [_ U]].
    elim N. now rewrite handleKeyboardEvent_caches by exact U.
Qed.

Lemma handleKeyboardEvent_caches_or_commits_hide :
  state (exec (handleKeyboardEvent HIDDEN 0 (JNum 250) (JStr "keyboard") None)
              (mkWorld INITIAL_STATE
                 (Some (Pending.make SHOWN 280 (JNum 250) (JStr "keyboard")))))
  <> state (mkWorld INITIAL_STATE
              (Some (Pending.make SHOWN 280 (JNum 250) (JStr "keyboard"))))
  /\ temporaryCachedState
       (exec (handleKeyboardEvent HIDDEN 0 (JNum 250) (JStr "keyboard") None)
             (mkWorld INITIAL_STATE
                (Some (Pending.make SHOWN 280 (JNum 250) (JStr "keyboard")))))
     = None.
Proof.
  assert (N : state (exec (handleKeyboardEvent HIDDEN 0 (JNum 250)
                             (JStr "keyboard") None)
                          (mkWorld INITIAL_STATE
                             (Some (Pending.make SHOWN 280 (JNum 250)
                                      (JStr "keyboard")))))
              <> state (mkWorld INITIAL_STATE
                          (Some (Pending.make SHOWN 280 (JNum 250)
                                   (JStr "keyboard"))))).
  { vm_compute. discriminate. }
  split; [exact N|].
  exact (proj2 (proj2 (handleKeyboardEvent_caches_or_commits HIDDEN 0 (JNum 250)
                         (JStr "keyboard") None
                         (mkWorld INITIAL_STATE
                            (Some (Pending.make SHOWN 280 (JNum 250)
                                     (JStr "keyboard")))))) N).
Defined.

(** ** How notifications compose *)

(** X3. Delivering a notification twice is delivering it once: a repeated show
    or hide event of either source changes nothing further. *)
Theorem deliver_idempotent
    (SCREEN_HEIGHT : Z) (useKC : bool) (n : Notification) (w : World) :
  exec (deliver SCREEN_HEIGHT useKC n) (exec (deliver SCREEN_HEIGHT useKC n) w)
  = exec (deliver SCREEN_HEIGHT useKC n) w.
Proof.
  rewrite !deliver_listener.
  destruct useKC, n; cbn [listener];
    unfold Controller.handleOnKeyboardShow, Controller.handleOnKeyboardHide,
      Fallback.handleOnKeyboardShow, Fallback.handleOnKeyboardHide;
    first [ reflexivity
          | apply handleKeyboardEvent_shown_twice
          | apply handleKeyboardEvent_hidden_twice ].
Qed.

(** X4. With the target set, a show notification that is listened to decides the
    world alone: whatever notification came just before it leaves no trace. *)
Theorem committed_show_absorbs_previous
    (SCREEN_HEIGHT : Z) (useKC : bool) (s m : Notification) (w : World) :
  truthy (KeyboardState.target (state w)) = true ->
  isShow s = true ->
  listened useKC s = true ->
  exec (deliver SCREEN_HEIGHT useKC s) (exec (deliver SCREEN_HEIGHT useKC m) w)
  = exec (deliver SCREEN_HEIGHT useKC s) w.
Proof.
  intros T S L. rewrite !deliver_listener.
  assert (T' : truthy (KeyboardState.target
                         (state (exec (listener SCREEN_HEIGHT useKC m) w)))
               = true) by now rewrite listener_target.
  assert (Et := listener_target SCREEN_HEIGHT useKC m w).
  assert (Eh := listener_heightWithinContainer SCREEN_HEIGHT useKC m w).
  set (w1 := exec (listener SCREEN_HEIGHT useKC m) w) in *.
  destruct useKC, s; try discriminate S; try discriminate L;
    cbn [listener];
    unfold Controller.handleOnKeyboardShow, Fallback.handleOnKeyboardShow;
    now apply handleKeyboardEvent_shown_frame.
Qed.

Lemma committed_show_absorbs_previous_hide :
  truthy (KeyboardState.target
            (state (mkWorld (withTarget (JNum 7) INITIAL_STATE) None))) = true
  /\ isShow (ControllerShow (ControllerEvent.make 300 (JNum 250))) = true
  /\ listened true (ControllerShow (ControllerEvent.make 300 (JNum 250))) = true
  /\ exec (deliver 800 true (ControllerShow (ControllerEvent.make 300 (JNum 250))))
          (exec (deliver 800 true
                   (ControllerHide (ControllerEvent.make 0 (JNum 100))))
                (mkWorld (withTarget (JNum 7) INITIAL_STATE) None))
     = exec (deliver 800 true
               (ControllerShow (ControllerEvent.make 300 (JNum 250))))
            (mkWorld (withTarget (JNum 7) INITIAL_STATE) None).
Proof.
  split; [reflexivity|]. split; [reflexivity|]. split; [reflexivity|].
  exact (committed_show_absorbs_previous 800 true
           (ControllerShow (ControllerEvent.make 300 (JNum 250)))
           (ControllerHide (ControllerEvent.make 0 (JNum 100)))
           (mkWorld (withTarget (JNum 7) INITIAL_STATE) None)
           eq_refl eq_refl eq_refl).
Defined.

(** X5. While the target is unset, a hide notification that is listened to
    cancels whatever notification came just before it: a show that was
    waiting in the cache is dropped and will not be replayed. *)
Theorem hide_without_target_absorbs_previous
    (SCREEN_HEIGHT : Z) (useKC : bool) (hide m : Notification) (w : World) :
  truthy (KeyboardState.target (state w)) = false ->
  isHide hide = true ->
  listened useKC hide = true ->
  exec (deliver SCREEN_HEIGHT useKC hide)
       (exec (deliver SCREEN_HEIGHT useKC m) w)
  = exec (deliver SCREEN_HEIGHT useKC hide) w
  /\ temporaryCachedState
       (exec (deliver SCREEN_HEIGHT useKC hide)
             (exec (deliver SCREEN_HEIGHT useKC m) w))
     = None.
Proof.
  intros U H L. rewrite !deliver_listener.
  assert (Ek := listener_height_without_target SCREEN_HEIGHT useKC m w U).
  assert (Et := listener_target SCREEN_HEIGHT useKC m w).
  assert (Eh := listener_heightWithinContainer SCREEN_HEIGHT useKC m w).
  set (w1 := exec (listener SCREEN_HEIGHT useKC m) w) in *.
  destruct useKC, hide; try discriminate H; try discriminate L;
    cbn [listener];
    unfold Controller.handleOnKeyboardHide, Fallback.handleOnKeyboardHide;
    (split;
     [ now apply handleKeyboardEvent_hidden_frame
     | now rewrite handleKeyboardEvent_commits by (right; discriminate) ]).
Qed.

Lemma hide_without_target_absorbs_pending_show :
  truthy (KeyboardState.target (state initial)) = false
  /\ isHide (KeyboardHide (KeyboardEvent.make (ScreenRect.make 0 800 400 0)
                             (JNum 250) (JStr "keyboard"))) = true
  /\ listened false
       (KeyboardHide (KeyboardEvent.make (ScreenRect.make 0 800 400 0)
                        (JNum 250) (JStr "keyboard"))) = true
  /\ exec (deliver 800 false
             (KeyboardHide (KeyboardEvent.make (ScreenRect.make 0 800 400 0)
                              (JNum 250) (JStr "keyboard"))))
          (exec (deliver 800 false
                   (KeyboardShow
                      (KeyboardEvent.make (ScreenRect.make 0 500 400 300)
                         (JNum 250) (JStr "keyboard"))))
                initial)
     = exec (deliver 800 false
               (KeyboardHide (KeyboardEvent.make (ScreenRect.make 0 800 400 0)
                                (JNum 250) (JStr "keyboard"))))
            initial.
Proof.
  split; [reflexivity|]. split; [reflexivity|]. split; [reflexivity|].
  exact (proj1 (hide_without_target_absorbs_previous 800 false
                  (KeyboardHide
                     (KeyboardEvent.make (ScreenRect.make 0 800 400 0)
                        (JNum 250) (JStr "keyboard")))
                  (KeyboardShow
                     (KeyboardEvent.make (ScreenRect.make 0 500 400 300)
                        (JNum 250) (JStr "keyboard")))
                  initial eq_refl eq_refl eq_refl)).
Defined.

(** ** The race between the focus and the show notification *)

(** X6. With react-native-keyboard-controller the race has one outcome: a show
    notification before the focus, cached and then replayed, gives the very
    world that the focus before the show notification gives, whatever was
    pending before. *)
Theorem controller_show_and_focus_commute
    (SCREEN_HEIGHT : Z) (event : ControllerEvent.t) (t : jsval) (w : World) :
  truthy (KeyboardState.target (state w)) = false ->
  truthy t = true ->
  exec (setTarget t)
       (exec (deliver SCREEN_HEIGHT true (ControllerShow event)) w)
  = exec (deliver SCREEN_HEIGHT true (ControllerShow event))
         (exec (setTarget t) w).
Proof.
  intros U T. rewrite !deliver_listener. cbn [listener].
  unfold Controller.handleOnKeyboardShow.
  rewrite (handleKeyboardEvent_caches _ _ _ _ w) by exact U.
  rewrite (setTarget_replays
             {| state := state w; temporaryCachedState := Some _ |}
             _ t U T eq_refl).
  rewrite handleKeyboardEvent_commits
    by (left; now rewrite setTarget_target).
  unfold committed. simpl.
  now rewrite setTarget_target, setTarget_heightWithinContainer.
Qed.

Lemma controller_show_and_focus_commute_at_start :
  truthy (KeyboardState.target (state initial)) = false
  /\ truthy (JStr "A") = true
  /\ exec (setTarget (JStr "A"))
          (exec (deliver 800 true
                   (ControllerShow (ControllerEvent.make 280 JUndefined)))
                initial)
     = exec (deliver 800 true
               (ControllerShow (ControllerEvent.make 280 JUndefined)))
            (exec (setTarget (JStr "A")) initial).
Proof.
  split; [reflexivity|]. split; [reflexivity|].
  exact (controller_show_and_focus_commute 800
           (ControllerEvent.make 280 JUndefined) (JStr "A") initial
           eq_refl eq_refl).
Defined.

(** X7. With the standard Keyboard API the order shows: the cache keeps no
    bottomOffset, so a show notification that waited for the focus commits
    the reported height alone, while the same notification after the focus
    commits the height plus [SCREEN_HEIGHT - height - screenY]; when that
    offset is 0 the two orders give the same world. *)
Theorem keyboard_show_and_focus_order
    (SCREEN_HEIGHT : Z) (event : KeyboardEvent.t) (t : jsval) (w : World) :
  truthy (KeyboardState.target (state w)) = false ->
  truthy t = true ->
  KeyboardState.height
    (state (exec (setTarget t)
              (exec (deliver SCREEN_HEIGHT false (KeyboardShow event)) w)))
  = ScreenRect.height (KeyboardEvent.endCoordinates event)
  /\ KeyboardState.height
       (state (exec (deliver SCREEN_HEIGHT false (KeyboardShow event))
                 (exec (setTarget t) w)))
     = ScreenRect.height (KeyboardEvent.endCoordinates event)
       + (SCREEN_HEIGHT
          - ScreenRect.height (KeyboardEvent.endCoordinates event)
          - ScreenRect.screenY (KeyboardEvent.endCoordinates event))
  /\ (SCREEN_HEIGHT
      - ScreenRect.height (KeyboardEvent.endCoordinates event)
      - ScreenRect.screenY (KeyboardEvent.endCoordinates event) = 0 ->
      exec (setTarget t)
           (exec (deliver SCREEN_HEIGHT false (KeyboardShow event)) w)
      = exec (deliver SCREEN_HEIGHT false (KeyboardShow event))
             (exec (setTarget t) w)).
Proof.
  intros U T. rewrite !deliver_listener. cbn [listener].
  unfold Fallback.handleOnKeyboardShow.
  set (h := ScreenRect.height (KeyboardEvent.endCoordinates event)).
  set (y := ScreenRect.screenY (KeyboardEvent.endCoordinates event)).
  rewrite (handleKeyboardEvent_caches _ _ _ _ w) by exact U.
  rewrite (setTarget_replays
             {| state := state w; temporaryCachedState := Some _ |}
             _ t U T eq_refl).
  rewrite handleKeyboardEvent_commits
    by (left; now rewrite setTarget_target).
  unfold committed. simpl.
  rewrite setTarget_target, setTarget_heightWithinContainer.
  split; [apply Z.add_0_r|]. split; [reflexivity|].
  intro E. now rewrite E.
Qed.

Lemma keyboard_show_and_focus_order_offset_48 :
  truthy (KeyboardState.target (state initial)) = false
  /\ truthy (JStr "A") = true
  /\ KeyboardState.height
       (state (exec (setTarget (JStr "A"))
                 (exec (deliver 800 false
                          (KeyboardShow
                             (KeyboardEvent.make (ScreenRect.make 0 452 400 300)
                                (JNum 250) (JStr "keyboard"))))
                       initial)))
     = 300
  /\ KeyboardState.height
       (state (exec (deliver 800 false
                       (KeyboardShow
                          (KeyboardEvent.make (ScreenRect.make 0 452 400 300)
                             (JNum 250) (JStr "keyboard"))))
                    (exec (setTarget (JStr "A")) initial)))
     = 348
  /\ 800
     - ScreenRect.height
         (KeyboardEvent.endCoordinates
            (KeyboardEvent.make (ScreenRect.make 0 500 400 300)
               (JNum 250) (JStr "keyboard")))
     - ScreenRect.screenY
         (KeyboardEvent.endCoordinates
            (KeyboardEvent.make (ScreenRect.make 0 500 400 300)
               (JNum 250) (JStr "keyboard")))
     = 0
  /\ exec (setTarget (JStr "A"))
          (exec (deliver 800 false
                   (KeyboardShow
                      (KeyboardEvent.make (ScreenRect.make 0 500 400 300)
                         (JNum 250) (JStr "keyboard"))))
                initial)
     = exec (deliver 800 false
               (KeyboardShow
                  (KeyboardEvent.make (ScreenRect.make 0 500 400 300)
                     (JNum 250) (JStr "keyboard"))))
            (exec (setTarget (JStr "A")) initial).
Proof.
  split; [reflexivity|]. split; [reflexivity|].
  destruct (keyboard_show_and_focus_order 800
              (KeyboardEvent.make (ScreenRect.make 0 452 400 300)
                 (JNum 250) (JStr "keyboard"))
              (JStr "A") initial eq_refl eq_refl) as [A [B _]].
  split; [exact A|]. split; [exact B|].
  split; [reflexivity|].
  exact (proj2 (proj2 (keyboard_show_and_focus_order 800
                         (KeyboardEvent.make (ScreenRect.make 0 500 400 300)
                            (JNum 250) (JStr "keyboard"))
                         (JStr "A") initial eq_refl eq_refl))
               eq_refl).
Defined.

(** X8. A cached event is replayed once: in any world a hook instance reaches,
    after the target was set to a set value, a further change of target
    writes the target and nothing else, and the cache is empty. *)
Theorem focus_replays_once
    (SCREEN_HEIGHT : Z) (useKC : bool) (actions : list Action) (t1 t2 : jsval) :
  truthy t1 = true ->
  exec (setTarget t2)
       (exec (setTarget t1) (history SCREEN_HEIGHT useKC actions))
  = {| state :=
         withTarget t2
           (state (exec (setTarget t1)
                     (history SCREEN_HEIGHT useKC actions)));
       temporaryCachedState := None |}.
Proof.
  intro T. apply setTarget_empty_cache.
  apply setTarget_clears_cache; [|exact T].
  apply steps_pendingWaits, initial_pendingWaits.
Qed.

Lemma focus_replays_once_A_then_B :
  truthy (JStr "A") = true
  /\ exec (setTarget (JStr "B"))
          (exec (setTarget (JStr "A"))
             (history 800 true
                [Notify (ControllerShow (ControllerEvent.make 280 JUndefined))]))
     = mkWorld (KeyboardState.make SHOWN 280 0 (JStr "keyboard") (JNum 250)
                  (JStr "B"))
               None.
Proof.
  split; [reflexivity|].
  exact (focus_replays_once 800 true
           [Notify (ControllerShow (ControllerEvent.make 280 JUndefined))]
           (JStr "A") (JStr "B") eq_refl).
Defined.

(** ** The status *)

Lemma handleKeyboardEvent_status st h d e off w :
  KeyboardState.status (state (exec (handleKeyboardEvent st h d e off) w)) = st
  \/ KeyboardState.status (state (exec (handleKeyboardEvent st h d e off) w))
     = KeyboardState.status (state w).
Proof.
  worklet.
  destruct (status_eqb st SHOWN
            && negb (truthy (KeyboardState.target (state w)))); auto.
Qed.

Lemma listener_status SH kc n w :
  KeyboardState.status (state w) <> UNDETERMINED ->
  KeyboardState.status (state (exec (listener SH kc n) w)) <> UNDETERMINED.
Proof.
  intro N.
  destruct kc, n; cbn [listener]; trivial;
    unfold Controller.handleOnKeyboardShow, Controller.handleOnKeyboardHide,
      Fallback.handleOnKeyboardShow, Fallback.handleOnKeyboardHide;
    match goal with
    | |- context [handleKeyboardEvent ?st ?h ?d ?e ?off] =>
        destruct (handleKeyboardEvent_status st h d e off w) as [E | E];
        rewrite E; [discriminate | exact N]
    end.
Qed.

Lemma setTarget_status t w :
  pendingWaits w ->
  KeyboardState.status (state w) <> UNDETERMINED ->
  KeyboardState.status (state (exec (setTarget t) w)) <> UNDETERMINED.
Proof.
  intros I N. unfold setTarget, assign. rewrite exec_useAnimatedReaction.
  set (w' := exec (state_set (withTarget t)) w).
  assert (S : KeyboardState.status (state w') = KeyboardState.status (state w))
    by reflexivity.
  unfold react.
  destruct (negb (truthy (KeyboardState.target (state w')))
            || strict_eq (KeyboardState.target (state w'))
                 (KeyboardState.target (state w))).
  - change (KeyboardState.status (state w') <> UNDETERMINED). now rewrite S.
  - rewrite exec_bind.
    change (fst (temporaryCachedState_get w')) with (temporaryCachedState w).
    change (snd (temporaryCachedState_get w')) with w'.
    destruct (temporaryCachedState w) as [cached|] eqn:C.
    + destruct (I cached C) as [Sh _].
      destruct (handleKeyboardEvent_status (Pending.status cached)
                  (Pending.height cached) (Pending.duration cached)
                  (Pending.easing cached) None w') as [E | E]; rewrite E.
      * rewrite Sh. discriminate.
      * now rewrite S.
    + change (KeyboardState.status (state w') <> UNDETERMINED).
      now rewrite S.
Qed.

Lemma history_app SH kc actions more :
  history SH kc (actions ++ more)
  = exec (sequence (map (step SH kc) more)) (history SH kc actions).
Proof. unfold history. now rewrite map_app, exec_sequence_app. Qed.

(** X9. The status leaves UNDETERMINED for good: once a hook instance has a
    status other than UNDETERMINED, no keyboard notification and no change
    of focus brings UNDETERMINED back. *)
Theorem status_stays_determined
    (SCREEN_HEIGHT : Z) (useKC : bool)
    (actions : list Action) (inputs : list Input) :
  KeyboardState.status (state (history SCREEN_HEIGHT useKC actions))
  <> UNDETERMINED ->
  KeyboardState.status
    (state (history SCREEN_HEIGHT useKC (actions ++ map toAction inputs)))
  <> UNDETERMINED.
Proof.
  rewrite history_app.
  assert (I : pendingWaits (history SCREEN_HEIGHT useKC actions))
    by apply steps_pendingWaits, initial_pendingWaits.
  revert I. generalize (history SCREEN_HEIGHT useKC actions).
  induction inputs as [|i inputs IH]; intros w I N; simpl.
  - exact N.
  - rewrite exec_seq. apply IH.
    + now apply step_pendingWaits.
    + destruct i as [n | t]; simpl.
      * rewrite deliver_listener. now apply listener_status.
      * now apply setTarget_status.
Qed.

Lemma status_stays_determined_after_hide :
  KeyboardState.status
    (state (history 800 true
              [Notify (ControllerHide (ControllerEvent.make 0 JUndefined))]))
  <> UNDETERMINED
  /\ KeyboardState.status
       (state (history 800 true
                 ([Notify (ControllerHide (ControllerEvent.make 0 JUndefined))]
                  ++ map toAction
                       [Keyboard (ControllerShow
                                    (ControllerEvent.make 280 JUndefined));
                        Focus (JStr "A"); Focus JUndefined])))
     <> UNDETERMINED.
Proof.
  assert (N : KeyboardState.status
                (state (history 800 true
                          [Notify (ControllerHide
                                     (ControllerEvent.make 0 JUndefined))]))
              <> UNDETERMINED).
  { vm_compute. discriminate. }
  split; [exact N|].
  exact (status_stays_determined 800 true
           [Notify (ControllerHide (ControllerEvent.make 0 JUndefined))]
           [Keyboard (ControllerShow (ControllerEvent.make 280 JUndefined));
            Focus (JStr "A"); Focus JUndefined]
           N).
Defined.

(** ** The platform and the event names *)

(** X10. The keyboard-controller source is chosen on Android alone, and only when
    [require] returned a module whose [KeyboardEvents.addListener] is there:
    a [require] that throws, a module without [KeyboardEvents], or any other
    platform, falls back to the standard Keyboard API. *)
Theorem controller_source_only_on_android
    (os : OS) (required : Required (option Rnkc.t)) :
  useKeyboardControllerEvents os (KeyboardControllerEvents required) = true
  <-> os = android
      /\ exists events,
           required = Returns (Some (Rnkc.make (Some events)))
           /\ Rnkc.addListener events = true.
Proof.
  split.
  - unfold useKeyboardControllerEvents. intro E.
    apply andb_true_iff in E as [A K]. split.
    + now destruct os.
    + destruct required as [|[[[events|]]|]]; simpl in K; try discriminate K.
      destruct (Rnkc.addListener events) eqn:L; [|discriminate K].
      now exists events.
  - intros [-> [events [-> L]]]. simpl. now rewrite L.
Qed.

(** X11. The two event names go together and tell the source: will-show with
    will-hide on iOS and on Android with the keyboard-controller, did-show
    with did-hide on Android without it, and two empty names on every other
    platform. *)
Theorem event_names_paired (os : OS) (controllerEvents : option Rnkc.events) :
  let useKC := useKeyboardControllerEvents os controllerEvents in
  let mapper := KEYBOARD_EVENT_MAPPER os useKC in
  (EventMapper.KEYBOARD_SHOW mapper = "keyboardWillShow"
   /\ EventMapper.KEYBOARD_HIDE mapper = "keyboardWillHide"
   /\ (os = ios \/ (os = android /\ useKC = true)))
  \/ (EventMapper.KEYBOARD_SHOW mapper = "keyboardDidShow"
      /\ EventMapper.KEYBOARD_HIDE mapper = "keyboardDidHide"
      /\ os = android /\ useKC = false)
  \/ (EventMapper.KEYBOARD_SHOW mapper = ""
      /\ EventMapper.KEYBOARD_HIDE mapper = ""
      /\ os <> ios /\ os <> android).
Proof.
  destruct os, controllerEvents as [events|]; simpl;
    first [ left; repeat split; auto; fail
          | right; left; repeat split; auto; fail
          | right; right; repeat split; discriminate ].
Qed.

(** ** Subscribing and unsubscribing *)

Lemma remove_absent {P : Type} (id : nat) (emitter : Emitter P) :
  Forall (fun s => sub_id s <> id) emitter -> remove id emitter = emitter.
Proof.
  induction 1 as [|s emitter N _ IH]; simpl.
  - reflexivity.
  - apply Nat.eqb_neq in N. rewrite N. simpl. now rewrite IH.
Qed.

Lemma remove_added {P : Type}
    (id : nat) (name : string) (cb : P -> Worklet unit) (emitter : Emitter P) :
  remove id (addListener id name cb emitter) = remove id emitter.
Proof.
  unfold remove, addListener. rewrite filter_app. cbn [filter sub_id].
  rewrite Nat.eqb_refl. cbn [negb]. apply app_nil_r.
Qed.

Lemma remove_other_added {P : Type}
    (id id' : nat) (name : string) (cb : P -> Worklet unit)
    (emitter : Emitter P) :
  id' <> id ->
  remove id (addListener id' name cb emitter)
  = addListener id' name cb (remove id emitter).
Proof.
  intro N. unfold remove, addListener. rewrite filter_app.
  cbn [filter sub_id].
  apply Nat.eqb_neq in N. now rewrite N.
Qed.

Lemma remove_two_added {P : Type}
    (id : nat) (name1 name2 : string) (cb1 cb2 : P -> Worklet unit)
    (emitter : Emitter P) :
  ids_below id emitter ->
  remove (S id)
    (remove id (addListener (S id) name2 cb2 (addListener id name1 cb1 emitter)))
  = emitter.
Proof.
  intro B.
  rewrite remove_other_added by lia.
  rewrite !remove_added.
  rewrite (remove_absent id emitter).
  - apply remove_absent.
    eapply Forall_impl; [|exact B]. simpl. intros s L. lia.
  - eapply Forall_impl; [|exact B]. simpl. intros s L. lia.
Qed.

Lemma remove_app_absent {P : Type} (id : nat) (emitter others : Emitter P) :
  Forall (fun s => sub_id s <> id) others ->
  remove id (emitter ++ others)%list = (remove id emitter ++ others)%list.
Proof.
  intro N. unfold remove. rewrite filter_app. f_equal.
  now apply remove_absent.
Qed.

Lemma cleanup_two_added {P : Type}
    (id : nat) (name1 name2 : string) (cb1 cb2 : P -> Worklet unit)
    (emitter others : Emitter P) :
  ids_below id emitter ->
  Forall (fun s => (S (S id) <= sub_id s)%nat) others ->
  remove (S id)
    (remove id
       (addListener (S id) name2 cb2 (addListener id name1 cb1 emitter)
        ++ others)%list)
  = (emitter ++ others)%list.
Proof.
  intros B L.
  rewrite (remove_app_absent id)
    by (eapply Forall_impl; [|exact L]; simpl; intros s G; lia).
  rewrite (remove_app_absent (S id))
    by (eapply Forall_impl; [|exact L]; simpl; intros s G; lia).
  now rewrite remove_two_added.
Qed.

(** X12. The cleanup of the effect removes the two subscriptions the effect
    added and no other: applied to the emitters as they are later, with the
    listeners that others added after the hook mounted, it leaves on both
    emitters the listeners from before the mount followed by those later
    ones, on whichever source the hook subscribed; so every notification
    then runs what it would run without the hook. *)
Theorem cleanup_restores_emitters
    (SCREEN_HEIGHT : Z) (os : OS) (controllerEvents : option Rnkc.events)
    (native : Native)
    (laterController : Emitter ControllerEvent.t)
    (laterKeyboard : Emitter KeyboardEvent.t) (laterFresh : nat) :
  ids_below (fresh native) (controllerEmitter native) ->
  ids_below (fresh native) (keyboardEmitter native) ->
  Forall (fun s => (S (S (fresh native)) <= sub_id s)%nat) laterController ->
  Forall (fun s => (S (S (fresh native)) <= sub_id s)%nat) laterKeyboard ->
  let mounted := fst (useEffect SCREEN_HEIGHT os controllerEvents native) in
  let cleanup := snd (useEffect SCREEN_HEIGHT os controllerEvents native) in
  let later :=
    {| controllerEmitter := (controllerEmitter mounted ++ laterController)%list;
       keyboardEmitter := (keyboardEmitter mounted ++ laterKeyboard)%list;
       fresh := laterFresh |} in
  controllerEmitter (cleanup later)
  = (controllerEmitter native ++ laterController)%list
  /\ keyboardEmitter (cleanup later)
     = (keyboardEmitter native ++ laterKeyboard)%list
  /\ forall mapper n,
       raise mapper n (cleanup later)
       = raise mapper n
           {| controllerEmitter :=
                (controllerEmitter native ++ laterController)%list;
              keyboardEmitter := (keyboardEmitter native ++ laterKeyboard)%list;
              fresh := laterFresh |}.
Proof.
  intros Bc Bk Lc Lk mounted cleanup later.
  assert (E : controllerEmitter (cleanup later)
              = (controllerEmitter native ++ laterController)%list
              /\ keyboardEmitter (cleanup later)
                 = (keyboardEmitter native ++ laterKeyboard)%list).
  { unfold later, mounted, cleanup, useEffect.
    destruct (useKeyboardControllerEvents os controllerEvents
              && match controllerEvents with
                 | Some _ => true
                 | None => false
                 end);
      cbn [fst snd controllerEmitter keyboardEmitter]; split; trivial;
      now apply cleanup_two_added. }
  destruct E as [Ec Ek]. split; [exact Ec|]. split; [exact Ek|].
  intros mapper n. unfold raise.
  cbn [controllerEmitter keyboardEmitter]. now rewrite Ec, Ek.
Qed.

Lemma cleanup_restores_emitters_android :
  ids_below
    (fresh (mkNative [mkSubscription 0 "keyboardWillShow" (fun _ => ret tt)]
              [mkSubscription 1 "keyboardDidHide" (fun _ => ret tt)] 2))
    (controllerEmitter
       (mkNative [mkSubscription 0 "keyboardWillShow" (fun _ => ret tt)]
          [mkSubscription 1 "keyboardDidHide" (fun _ => ret tt)] 2))
  /\ ids_below
       (fresh (mkNative [mkSubscription 0 "keyboardWillShow" (fun _ => ret tt)]
                 [mkSubscription 1 "keyboardDidHide" (fun _ => ret tt)] 2))
       (keyboardEmitter
          (mkNative [mkSubscription 0 "keyboardWillShow" (fun _ => ret tt)]
             [mkSubscription 1 "keyboardDidHide" (fun _ => ret tt)] 2))
  /\ Forall (fun s : Subscription ControllerEvent.t => (4 <= sub_id s)%nat)
       [mkSubscription 4 "keyboardWillHide" (fun _ => ret tt)]
  /\ Forall (fun s : Subscription KeyboardEvent.t => (4 <= sub_id s)%nat)
       [mkSubscription 5 "keyboardDidShow" (fun _ => ret tt)]
  /\ controllerEmitter
       (snd (useEffect 800 android (Some (Rnkc.makeEvents true))
               (mkNative [mkSubscription 0 "keyboardWillShow" (fun _ => ret tt)]
                  [mkSubscription 1 "keyboardDidHide" (fun _ => ret tt)] 2))
          (mkNative
             [mkSubscription 0 "keyboardWillShow" (fun _ => ret tt);
              mkSubscription 2 "keyboardWillShow" Controller.handleOnKeyboardShow;
              mkSubscription 3 "keyboardWillHide" Controller.handleOnKeyboardHide;
              mkSubscription 4 "keyboardWillHide" (fun _ => ret tt)]
             [mkSubscription 1 "keyboardDidHide" (fun _ => ret tt);
              mkSubscription 5 "keyboardDidShow" (fun _ => ret tt)]
             6))
     = [mkSubscription 0 "keyboardWillShow" (fun _ => ret tt);
        mkSubscription 4 "keyboardWillHide" (fun _ => ret tt)]
  /\ keyboardEmitter
       (snd (useEffect 800 android (Some (Rnkc.makeEvents true))
               (mkNative [mkSubscription 0 "keyboardWillShow" (fun _ => ret tt)]
                  [mkSubscription 1 "keyboardDidHide" (fun _ => ret tt)] 2))
          (mkNative
             [mkSubscription 0 "keyboardWillShow" (fun _ => ret tt);
              mkSubscription 2 "keyboardWillShow" Controller.handleOnKeyboardShow;
              mkSubscription 3 "keyboardWillHide" Controller.handleOnKeyboardHide;
              mkSubscription 4 "keyboardWillHide" (fun _ => ret tt)]
             [mkSubscription 1 "keyboardDidHide" (fun _ => ret tt);
              mkSubscription 5 "keyboardDidShow" (fun _ => ret tt)]
             6))
     = [mkSubscription 1 "keyboardDidHide" (fun _ => ret tt);
        mkSubscription 5 "keyboardDidShow" (fun _ => ret tt)].
Proof.
  assert (Bc : ids_below 2
                 [mkSubscription (P := ControllerEvent.t) 0 "keyboardWillShow"
                    (fun _ => ret tt)])
    by (repeat constructor).
  assert (Bk : ids_below 2
                 [mkSubscription (P := KeyboardEvent.t) 1 "keyboardDidHide"
                    (fun _ => ret tt)])
    by (repeat constructor).
  assert (Lc : Forall
                 (fun s : Subscription ControllerEvent.t => (4 <= sub_id s)%nat)
                 [mkSubscription 4 "keyboardWillHide" (fun _ => ret tt)])
    by (repeat constructor).
  assert (Lk : Forall
                 (fun s : Subscription KeyboardEvent.t => (4 <= sub_id s)%nat)
                 [mkSubscription 5 "keyboardDidShow" (fun _ => ret tt)])
    by (repeat constructor).
  split; [exact Bc|]. split; [exact Bk|].
  split; [exact Lc|]. split; [exact Lk|].
  destruct (cleanup_restores_emitters 800 android (Some (Rnkc.makeEvents true))
              (mkNative [mkSubscription 0 "keyboardWillShow" (fun _ => ret tt)]
                 [mkSubscription 1 "keyboardDidHide" (fun _ => ret tt)] 2)
              [mkSubscription 4 "keyboardWillHide" (fun _ => ret tt)]
              [mkSubscription 5 "keyboardDidShow" (fun _ => ret tt)]
              6 Bc Bk Lc Lk) as [Ec [Ek _]].
  split; [exact Ec | exact Ek].
Defined.

Lemma emit_nil {P : Type} (name : string) (payload : P) (w : World) :
  exec (emit name payload []) w = w.
Proof. reflexivity. Qed.

Lemma emit_added {P : Type}
    (name name' : string) (id : nat) (cb : P -> Worklet unit) (payload : P)
    (emitter : Emitter P) (w : World) :
  exec (emit name payload (addListener id name' cb emitter)) w
  = if (name' =? name)%string
    then exec (cb payload) (exec (emit name payload emitter) w)
    else exec (emit name payload emitter) w.
Proof.
  unfold emit, addListener. rewrite filter_app. cbn [filter sub_name].
  destruct (name' =? name)%string.
  - rewrite map_app, exec_sequence_app. cbn [map sequence sub_callback].
    now rewrite exec_seq.
  - now rewrite app_nil_r.
Qed.

(** X13. On iOS and on Android the subscriptions of the effect are the listener
    of the hook: when the platform raises a show or hide notification under
    the name of the mapper, the mounted emitters run the show or hide handler
    of the chosen source on it, and a notification of the other source runs
    nothing. *)
Theorem subscriptions_implement_listener
    (SCREEN_HEIGHT : Z) (os : OS) (controllerEvents : option Rnkc.events)
    (next : nat) (n : Notification) (w : World) :
  os = ios \/ os = android ->
  exec (raise
          (KEYBOARD_EVENT_MAPPER os
             (useKeyboardControllerEvents os controllerEvents))
          n
          (fst (useEffect SCREEN_HEIGHT os controllerEvents
                  (mkNative [] [] next))))
       w
  = exec (listener SCREEN_HEIGHT
            (useKeyboardControllerEvents os controllerEvents) n)
         w.
Proof.
  intros [-> | ->]; destruct controllerEvents as [events|], n;
    cbn [useKeyboardControllerEvents OS_eqb andb useEffect fst raise listener
         KEYBOARD_EVENT_MAPPER Platform_select controllerEmitter
         keyboardEmitter EventMapper.KEYBOARD_SHOW EventMapper.KEYBOARD_HIDE];
    rewrite ?emit_added, ?emit_nil; reflexivity.
Qed.

Lemma subscriptions_implement_listener_ios :
  (ios = ios \/ ios = android)
  /\ exec (raise
             (KEYBOARD_EVENT_MAPPER ios
                (useKeyboardControllerEvents ios (Some (Rnkc.makeEvents true))))
             (KeyboardHide (KeyboardEvent.make (ScreenRect.make 0 800 400 0)
                              (JNum 250) (JStr "keyboard")))
             (fst (useEffect 800 ios (Some (Rnkc.makeEvents true))
                     (mkNative [] [] 0))))
          initial
     = exec (Fallback.handleOnKeyboardHide
               (KeyboardEvent.make (ScreenRect.make 0 800 400 0)
                  (JNum 250) (JStr "keyboard")))
            initial.
Proof.
  split; [left; reflexivity|].
  exact (subscriptions_implement_listener 800 ios
           (Some (Rnkc.makeEvents true)) 0
           (KeyboardHide (KeyboardEvent.make (ScreenRect.make 0 800 400 0)
                            (JNum 250) (JStr "keyboard")))
           initial (or_introl eq_refl)).
Defined.

(** X14. The mounted hook hears the two names of its mapper and no other: an
    event of any other name, on either emitter, leaves the shared values as
    they are.  So on Android without the keyboard-controller the will-show
    and will-hide events are not heard, and on a platform other than iOS and
    Android no named keyboard event is. *)
Theorem other_event_names_ignored
    (SCREEN_HEIGHT : Z) (os : OS) (controllerEvents : option Rnkc.events)
    (next : nat) (name : string)
    (controllerEvent : ControllerEvent.t) (keyboardEvent : KeyboardEvent.t)
    (w : World) :
  let mapper :=
    KEYBOARD_EVENT_MAPPER os (useKeyboardControllerEvents os controllerEvents) in
  let mounted :=
    fst (useEffect SCREEN_HEIGHT os controllerEvents (mkNative [] [] next)) in
  EventMapper.KEYBOARD_SHOW mapper <> name ->
  EventMapper.KEYBOARD_HIDE mapper <> name ->
  exec (emit name controllerEvent (controllerEmitter mounted)) w = w
  /\ exec (emit name keyboardEvent (keyboardEmitter mounted)) w = w.
Proof.
  intros mapper mounted Ns Nh.
  apply String.eqb_neq in Ns. apply String.eqb_neq in Nh.
  unfold mounted, useEffect. fold mapper.
  destruct (useKeyboardControllerEvents os controllerEvents
            && match controllerEvents with
               | Some _ => true
               | None => false
               end);
    cbn [fst controllerEmitter keyboardEmitter];
    rewrite ?emit_added, ?emit_nil, ?Ns, ?Nh; now split.
Qed.

Lemma other_event_names_ignored_android_will_show :
  EventMapper.KEYBOARD_SHOW
    (KEYBOARD_EVENT_MAPPER android (useKeyboardControllerEvents android None))
  <> "keyboardWillShow"
  /\ EventMapper.KEYBOARD_HIDE
       (KEYBOARD_EVENT_MAPPER android (useKeyboardControllerEvents android None))
     <> "keyboardWillShow"
  /\ exec (emit "keyboardWillShow"
             (KeyboardEvent.make (ScreenRect.make 0 500 400 300)
                (JNum 250) (JStr "keyboard"))
             (keyboardEmitter
                (fst (useEffect 800 android None (mkNative [] [] 0)))))
          (mkWorld (withTarget (JNum 7) INITIAL_STATE) None)
     = mkWorld (withTarget (JNum 7) INITIAL_STATE) None.
Proof.
  assert (Ns : EventMapper.KEYBOARD_SHOW
                 (KEYBOARD_EVENT_MAPPER android
                    (useKeyboardControllerEvents android None))
               <> "keyboardWillShow") by (vm_compute; discriminate).
  assert (Nh : EventMapper.KEYBOARD_HIDE
                 (KEYBOARD_EVENT_MAPPER android
                    (useKeyboardControllerEvents android None))
               <> "keyboardWillShow") by (vm_compute; discriminate).
  split; [exact Ns|]. split; [exact Nh|].
  exact (proj2 (other_event_names_ignored 800 android None 0 "keyboardWillShow"
                  (ControllerEvent.make 0 JUndefined)
                  (KeyboardEvent.make (ScreenRect.make 0 500 400 300)
                     (JNum 250) (JStr "keyboard"))
                  (mkWorld (withTarget (JNum 7) INITIAL_STATE) None)
                  Ns Nh)).
Defined.
